(** * Planner_injector: the affinity cache, the fetcher, the enrichment
    handler and the planner-prompt interceptor of [plugin.py].

    The Python module keeps its state in module globals ([user_cache_manager],
    [is_enabled], [_original_func]) and in one attribute of a host class
    ([BrainPlanner.build_planner_prompt]).  The embedding threads these
    through a state-and-exception monad.  Readings of [time.time()] are
    explicit arguments; they are integers counting clock ticks, and [ttl] is
    a number of the same ticks. *)

From Stdlib Require Import Ascii.
From stdpp Require Import gmap strings pretty list.

Open Scope Z_scope.

(** ** Exceptions and results *)

(** The exception classes the module can meet.  All of them derive from
    Python's [Exception]; [TimeoutException] derives from httpx's
    [RequestError], [HTTPStatusError] does not. *)
Inductive exn : Type :=
| TimeoutException
| RequestError
| HTTPStatusError
| JSONDecodeError
| AttributeError
| TypeError
| RecursionError.

#[global] Instance exn_eq_dec : EqDecision exn.
Proof. solve_decision. Defined.

(** [isinstance(e, httpx.TimeoutException)]. *)
Definition is_TimeoutException (e : exn) : bool :=
  match e with TimeoutException => true | _ => false end.

(** [isinstance(e, (httpx.RequestError, httpx.HTTPStatusError))]. *)
Definition is_RequestError_or_HTTPStatusError (e : exn) : bool :=
  match e with
  | TimeoutException | RequestError | HTTPStatusError => true
  | _ => false
  end.

Inductive result (A : Type) : Type :=
| Return (a : A)
| Raise (e : exn).
Arguments Return {A} a.
Arguments Raise {A} e.

Definition returns {A} (r : result A) : bool :=
  match r with Return _ => true | Raise _ => false end.

(** ** Data model *)

Record UserInfo : Type := mkUserInfo {
  userid : string;
  impression : Z;
  attitude : string
}.

Record UserInfoCacheEntry : Type := mkUserInfoCacheEntry {
  user_info : UserInfo;
  stamp : Z
}.

(** ** The cache manager *)

Module UserInfoCacheManager.

(** The lock only makes each method body atomic; a method is one state
    transformer here. *)
Record t : Type := mk {
  _cache : gmap string UserInfoCacheEntry;
  ttl : Z
}.

(** [__init__(self, ttl=3600)] *)
Definition init (ttl : Z) : t := {| _cache := ∅; ttl := ttl |}.
Definition default_ttl : Z := 3600.

(** [get]: [now] is the reading [time.time()] gives when it is asked (only
    when an entry is found).  A cache entry is a dict of two keys, hence
    truthy, so [not cache_entry] holds exactly when the key is missing. *)
Definition get (now : Z) (user_id : string) (self : t) : option UserInfo * t :=
  match _cache self !! user_id with
  | None => (None, self)
  | Some cache_entry =>
      if bool_decide (now - stamp cache_entry > ttl self)
      then (None, {| _cache := delete user_id (_cache self); ttl := ttl self |})
      else (Some (user_info cache_entry), self)
  end.

(** [set]: [now] is the reading of [time.time()] taken for the stamp. *)
Definition set (now : Z) (user_id : string) (impression : Z) (attitude : string)
    (self : t) : t :=
  let user_info := mkUserInfo user_id impression attitude in
  {| _cache := <[user_id := mkUserInfoCacheEntry user_info now]> (_cache self);
     ttl := ttl self |}.

End UserInfoCacheManager.

(** Operations on the store, for runs of several calls. *)
Inductive StoreOp : Type :=
| OpGet (now : Z) (user_id : string)
| OpSet (now : Z) (user_id : string) (impression : Z) (attitude : string).

Definition run_op (op : StoreOp) (c : UserInfoCacheManager.t) : UserInfoCacheManager.t :=
  match op with
  | OpGet now u => snd (UserInfoCacheManager.get now u c)
  | OpSet now u i a => UserInfoCacheManager.set now u i a c
  end.

Definition run_ops (ops : list StoreOp) (c : UserInfoCacheManager.t) : UserInfoCacheManager.t :=
  foldl (λ c op, run_op op c) c ops.

Definition writes (u : string) (op : StoreOp) : bool :=
  match op with
  | OpGet _ _ => false
  | OpSet _ u' _ _ => bool_decide (u' = u)
  end.

(** Every entry's record carries the key it is filed under. *)
Definition keys_agree (c : UserInfoCacheManager.t) : Prop :=
  ∀ u e, UserInfoCacheManager._cache c !! u = Some e → userid (user_info e) = u.

(** ** Values of the host *)

(** What [message_base_info] (a [Dict[str, Any]]) can hold under a key, as
    far as [str()] of it is needed. *)
Inductive PyVal : Type :=
| PyNone
| PyStr (s : string)
| PyInt (z : Z).

(** [str(v)] *)
Definition py_str (v : PyVal) : string :=
  match v with
  | PyNone => "None"
  | PyStr s => s
  | PyInt z => pretty z
  end.

(** [d.get(key)] of a Python dict: [None] when the key is missing. *)
Definition dict_get (d : gmap string PyVal) (key : string) : PyVal :=
  default PyNone (d !! key).

Record MaiMessages : Type := mkMaiMessages {
  message_base_info : gmap string PyVal
}.

Record TargetPersonInfo : Type := mkTargetPersonInfo {
  user_id : string
}.

Record BrainPlanner : Type := mkBrainPlanner {
  chat_id : string
}.

(** The two functions that are ever bound to the hook point, by identity:
    the host's own [build_planner_prompt] and this module's
    [_patch_planner]. *)
Inductive Callable : Type :=
| HostBuildPlannerPrompt
| PatchPlanner.

#[global] Instance Callable_eq_dec : EqDecision Callable.
Proof. solve_decision. Defined.

(** ** Configuration ([config_schema]) *)

Record PluginConfig : Type := mkPluginConfig {
  plugin_name : string;
  plugin_enabled : bool;
  plugin_user_debug : bool;
  api_url : string;
  api_timeout : Z
}.

Definition default_config : PluginConfig :=
  {| plugin_name := "planner_injector";
     plugin_enabled := true;
     plugin_user_debug := false;
     api_url := "http://url.to.your.zhenxun";
     api_timeout := 10 |}.

(** ** The remote service as httpx shows it *)

(** What [response.json()] gives for a body that decodes: a JSON object,
    of which only the two fields read are kept, typed as [post_api]'s
    annotation [Tuple[int, str]] has them, or some other JSON value (on
    which [.get] is an [AttributeError]). *)
Inductive JsonValue : Type :=
| JsonObject (impression_field : option Z) (attitude_field : option string)
| JsonNotObject.

(** [json_body = None]: the body does not decode. *)
Record Response : Type := mkResponse {
  status_code : Z;
  json_body : option JsonValue
}.

Inductive PostOutcome : Type :=
| PostRaises (e : exn)
| PostResponse (r : Response).

(** The remote end: what [client.post(url, timeout=timeout)] comes back
    with. *)
Definition Network : Type := string → Z → PostOutcome.

(** ** Log records, one constructor per logging call of the module *)

Inductive LogEntry : Type :=
| DebugApiSuccess (user_id : string) (impression : Z)
| ErrorApiTimeout (url : string)
| ErrorApiFailed (e : exn)
| ErrorApiUnknown (e : exn)
| InfoInjected (chat_id_prefix : string)
| InfoPatching
| InfoPatched
| ErrorPatchFailed
| ErrorPatchException (e : exn)
| InfoPluginLoaded (plugin_name : string).

(** ** Module state and the monad of its functions *)

Record Globals : Type := mkGlobals {
  is_enabled : option bool;
  allow_user_debug : option bool;
  user_cache_manager : UserInfoCacheManager.t;
  _original_func : option Callable;
  (** the class attribute [BrainPlanner.build_planner_prompt];
      [None]: the class has no such attribute *)
  build_planner_prompt : option Callable;
  (** the URLs posted to, latest first *)
  requests : list string;
  (** latest first *)
  log : list LogEntry
}.

(** The module right after import, before the patching thread has run and
    before the host has built the [Plugin]. *)
Definition module_globals (hook : option Callable) : Globals :=
  {| is_enabled := None;
     allow_user_debug := None;
     user_cache_manager := UserInfoCacheManager.init UserInfoCacheManager.default_ttl;
     _original_func := None;
     build_planner_prompt := hook;
     requests := [];
     log := [] |}.

Definition M (A : Type) : Type := Globals → result A * Globals.

#[global] Instance M_ret : MRet M := λ A a g, (Return a, g).

#[global] Instance M_bind : MBind M := λ A B f m g,
  match m g with
  | (Return a, g') => f a g'
  | (Raise e, g') => (Raise e, g')
  end.

Definition raise {A} (e : exn) : M A := λ g, (Raise e, g).

(** [try: body  except Exception as e: handler] *)
Definition try_except {A} (body : M A) (handler : exn → M A) : M A := λ g,
  match body g with
  | (Return a, g') => (Return a, g')
  | (Raise e, g') => handler e g'
  end.

Definition read {A} (field : Globals → A) : M A := λ g, (Return (field g), g).

Definition logger (entry : LogEntry) : M unit := λ g,
  (Return (),
   mkGlobals (is_enabled g) (allow_user_debug g) (user_cache_manager g)
     (_original_func g) (build_planner_prompt g) (requests g) (entry :: log g)).

Definition write_user_cache_manager (c : UserInfoCacheManager.t) : M unit := λ g,
  (Return (),
   mkGlobals (is_enabled g) (allow_user_debug g) c
     (_original_func g) (build_planner_prompt g) (requests g) (log g)).

Definition write_original_func (f : option Callable) : M unit := λ g,
  (Return (),
   mkGlobals (is_enabled g) (allow_user_debug g) (user_cache_manager g)
     f (build_planner_prompt g) (requests g) (log g)).

Definition write_build_planner_prompt (f : option Callable) : M unit := λ g,
  (Return (),
   mkGlobals (is_enabled g) (allow_user_debug g) (user_cache_manager g)
     (_original_func g) f (requests g) (log g)).

Definition write_flags (enabled debug : option bool) : M unit := λ g,
  (Return (),
   mkGlobals enabled debug (user_cache_manager g)
     (_original_func g) (build_planner_prompt g) (requests g) (log g)).

(** [user_cache_manager.get(user_id)] *)
Definition cache_get (now : Z) (user_id : string) : M (option UserInfo) :=
  c ← read user_cache_manager;
  let '(r, c') := UserInfoCacheManager.get now user_id c in
  _ ← write_user_cache_manager c';
  mret r.

(** [user_cache_manager.set(user_id, impression, attitude)] *)
Definition cache_set (now : Z) (user_id : string) (impression : Z)
    (attitude : string) : M unit :=
  c ← read user_cache_manager;
  write_user_cache_manager (UserInfoCacheManager.set now user_id impression attitude c).

(** [Plugin.__init__]: the plugin's name is read from the configuration and
    logged, then the two flags are read from it. *)
Definition plugin_init (cfg : PluginConfig) : M unit :=
  let plugin_name := plugin_name cfg in
  _ ← logger (InfoPluginLoaded plugin_name);
  write_flags (Some (plugin_enabled cfg)) (Some (plugin_user_debug cfg)).

(** Truth value of a flag that is [None] or a [bool]. *)
Definition truthy (flag : option bool) : bool := default false flag.

(** ** The fetcher: [UserInfoGet.post_api] *)

(** [s.rstrip(chars)]: the longest suffix made of characters of [chars] is
    dropped. *)
Fixpoint rstrip (chars : list Ascii.ascii) (s : string) : string :=
  match s with
  | EmptyString => EmptyString
  | String c s' =>
      match rstrip chars s' with
      | EmptyString =>
          if bool_decide (c ∈ chars) then EmptyString else String c EmptyString
      | r => String c r
      end
  end.

(** [client.post(url, timeout=timeout)]: the request is counted, then the
    remote end answers or the call raises. *)
Definition client_post (net : Network) (url : string) (timeout : Z) : M Response := λ g,
  let g' := mkGlobals (is_enabled g) (allow_user_debug g) (user_cache_manager g)
              (_original_func g) (build_planner_prompt g) (url :: requests g) (log g) in
  match net url timeout with
  | PostRaises e => (Raise e, g')
  | PostResponse r => (Return r, g')
  end.

(** [response.raise_for_status()]: httpx raises unless the status is 2xx. *)
Definition raise_for_status (response : Response) : M unit :=
  if bool_decide (200 ≤ status_code response ≤ 299) then mret ()
  else raise HTTPStatusError.

(** [response.json()] *)
Definition response_json (response : Response) : M JsonValue :=
  match json_body response with
  | Some data => mret data
  | None => raise JSONDecodeError
  end.

(** [data.get("impression", 0)] *)
Definition data_get_impression (data : JsonValue) (dflt : Z) : M Z :=
  match data with
  | JsonObject i _ => mret (default dflt i)
  | JsonNotObject => raise AttributeError
  end.

(** [data.get("attitude", "一般")] *)
Definition data_get_attitude (data : JsonValue) (dflt : string) : M string :=
  match data with
  | JsonObject _ a => mret (default dflt a)
  | JsonNotObject => raise AttributeError
  end.

Definition post_api_url (cfg : PluginConfig) (user_id : string) : string :=
  rstrip ["/"%char] (api_url cfg) +:+ "/get_info/" +:+ user_id.

(** The URL and the timeout are read before the [try] block; [api.url] is
    a string by the configuration schema, so building the URL does not
    raise.  The three [except] clauses are tried in the order of the
    source. *)
Definition post_api (cfg : PluginConfig) (net : Network) (user_id : string)
    : M (Z * string) :=
  let url := post_api_url cfg user_id in
  let timeout := api_timeout cfg in
  try_except
    (response ← client_post net url timeout;
     _ ← raise_for_status response;
     data ← response_json response;
     impression ← data_get_impression data 0;
     attitude ← data_get_attitude data "一般";
     _ ← logger (DebugApiSuccess user_id impression);
     mret (impression, attitude))
    (λ e,
       if is_TimeoutException e then
         _ ← logger (ErrorApiTimeout url); mret (0, "一般")
       else if is_RequestError_or_HTTPStatusError e then
         _ ← logger (ErrorApiFailed e); mret (0, "一般")
       else
         _ ← logger (ErrorApiUnknown e); mret (0, "一般")).

(** ** The enrichment step: [UserInfoGet.execute] *)

(** The five-tuple the handler returns.  The host's [BaseEventHandler]
    reads it by position as (executed successfully, go on with the
    pipeline, message, custom result, modified message). *)
Definition HandlerResult : Type :=
  bool * bool * option string * option unit * option MaiMessages.

Definition handler_success (r : HandlerResult) : bool := r.1.1.1.1.
Definition handler_continue (r : HandlerResult) : bool := r.1.1.1.2.

(** [t_get] and [t_set] are the clock readings at the cache lookup and at
    the cache write (which comes after the network call). *)
Definition execute (cfg : PluginConfig) (net : Network) (t_get t_set : Z)
    (message : option MaiMessages) : M HandlerResult :=
  enabled ← read is_enabled;
  if negb (truthy enabled) then mret (false, true, None, None, None)
  else
    match message with
    | None => raise AttributeError
    | Some message =>
        let base_info := message_base_info message in
        let userId := py_str (dict_get base_info "user_id") in
        cached ← cache_get t_get userId;
        match cached with
        | Some _ => mret (true, true, None, None, None)
        | None =>
            '(impression, attitude) ← post_api cfg net userId;
            _ ← cache_set t_set userId impression attitude;
            mret (true, true, None, None, None)
        end
    end.



Definition message_of (u : string) : option MaiMessages :=
  Some (mkMaiMessages {[ "user_id" := PyStr u ]}).

(** ** Slices of a [str] *)

(** Strings are the UTF-8 bytes of a Python [str]; a character is a byte
    that is no continuation byte ([10xxxxxx]) with the continuation bytes
    that follow it. *)
Definition is_continuation_byte (b : Ascii.ascii) : bool :=
  match b with
  | Ascii.Ascii _ _ _ _ _ _ b6 b7 => b7 && negb b6
  end.

(** [s[:n]]: the first [n] characters. *)
Fixpoint str_slice_to (n : nat) (s : string) : string :=
  match s with
  | EmptyString => EmptyString
  | String b s' =>
      if is_continuation_byte b then String b (str_slice_to n s')
      else
        match n with
        | O => EmptyString
        | S n' => String b (str_slice_to n' s')
        end
  end.

(** ** The interceptor: [_patch_planner] and [patch] *)

Section Interceptor.

Context {DatabaseMessages ActionInfo : Type}.

(** The arguments of [build_planner_prompt], [self] included. *)
Record PlannerArgs : Type := mkPlannerArgs {
  self : BrainPlanner;
  chat_target_info : option TargetPersonInfo;
  current_available_actions : gmap string ActionInfo;
  message_id_list : list (string * DatabaseMessages);
  chat_content_block : string;
  interest : string;
  prompt_key : string
}.

Definition PlannerResult : Type := string * list (string * DatabaseMessages).

(** The host's own prompt builder.  It does not touch this module's
    globals; it returns a pair or raises. *)
Variable host_build_planner_prompt : PlannerArgs → result PlannerResult.

(** The f-string appended to the prompt. *)
Definition favorability_prompt (user_info : UserInfo) : string :=
  String "010"%char "你对当前用户的好感度是" +:+ pretty (impression user_info)
  +:+ "，态度是" +:+ attitude user_info
  +:+ "，好感度越高，选择reply的概率越大。好感度>50则有75%的概率reply。".

(** The body of [_patch_planner].  [call] runs whatever function the global
    [_original_func] names; [now] is the clock reading at the cache lookup.
    A [UserInfo] object is always truthy, so [if user_info] tests for
    [None] only.  Calling [None] is a [TypeError]; [.user_id] of [None] is
    an [AttributeError]. *)
Definition _patch_planner (call : Callable → PlannerArgs → M PlannerResult)
    (now : Z) (args : PlannerArgs) : M PlannerResult :=
  original ← read _original_func;
  match original with
  | None => raise TypeError
  | Some f =>
      '(prompt, message_id_list_result) ← call f args;
      match chat_target_info args with
      | None => raise AttributeError
      | Some info =>
          user_info ← cache_get now (user_id info);
          match user_info with
          | Some user_info =>
              _ ← logger (InfoInjected (str_slice_to 5 (chat_id (self args))));
              mret (prompt +:+ favorability_prompt user_info, message_id_list_result)
          | None => mret (prompt, message_id_list_result)
          end
      end
  end.

(** Calling a function value.  [depth] is the number of frames the
    interpreter still allows; with none left a call of [_patch_planner]
    raises [RecursionError]. *)
Fixpoint call (depth : nat) (now : Z) (f : Callable) (args : PlannerArgs)
    : M PlannerResult :=
  match f with
  | HostBuildPlannerPrompt => λ g, (host_build_planner_prompt args, g)
  | PatchPlanner =>
      match depth with
      | O => raise RecursionError
      | S depth' => _patch_planner (call depth' now) now args
      end
  end.

(** The host calls [planner.build_planner_prompt(...)]: whatever is bound
    to the class attribute at that moment runs. *)
Definition invoke_hook (depth : nat) (now : Z) (args : PlannerArgs)
    : M PlannerResult :=
  bound ← read build_planner_prompt;
  match bound with
  | None => raise AttributeError
  | Some f => call depth now f args
  end.

(** [patch()], after its [time.sleep(3)]. *)
Definition patch : M unit :=
  try_except
    (current ← read build_planner_prompt;
     match current with
     | None => raise AttributeError
     | Some f =>
         _ ← write_original_func (Some f);
         _ ← write_build_planner_prompt (Some PatchPlanner);
         _ ← logger InfoPatching;
         original ← read _original_func;
         bound ← read build_planner_prompt;
         if bool_decide (original ≠ bound) then logger InfoPatched
         else logger ErrorPatchFailed
     end)
    (λ e, logger (ErrorPatchException e)).

(** The wrapper is installed over the host's function. *)
Definition installed (g : Globals) : Prop :=
  _original_func g = Some HostBuildPlannerPrompt ∧
  build_planner_prompt g = Some PatchPlanner.

End Interceptor.

Arguments PlannerArgs : clear implicits.
Arguments PlannerResult : clear implicits.

(** ** The debug command: [DebugCommand.execute] *)

(** What the command reads of its message:
    [message.message_info.user_info.user_id] and
    [message.chat_stream.stream_id]. *)
Record CommandMessage : Type := mkCommandMessage {
  message_info_user_info_user_id : string;
  chat_stream_stream_id : string
}.

(** [matched_groups] is the regex's group dict; a group that took no part
    in the match reads [None], like a missing key. *)
Record DebugCommand : Type := mkDebugCommand {
  matched_groups : gmap string string;
  message : CommandMessage
}.

(** The texts handed to [send_text], one constructor per call of the
    source: [f"impression:{impression}"] and
    [f"is_group_chat:{is_group_chat}"]. *)
Inductive SentText : Type :=
| ImpressionText (found : option UserInfo)
| IsGroupChatText (is_group_chat : bool).

(** The command's return value [(success, message, code)] with the texts
    sent, earliest first. *)
Definition CommandResult : Type := (bool * string * Z) * list SentText.

(** [not s] for a value that is [None] or a string. *)
Definition str_falsy (s : option string) : bool :=
  match s with
  | None => true
  | Some s => bool_decide (s = "")
  end.

(** [get_chat_type_and_target_info] is the host's; [now] is the clock
    reading at the cache lookup. *)
Definition DebugCommand_execute
    (get_chat_type_and_target_info : string → bool * option TargetPersonInfo)
    (now : Z) (self : DebugCommand) : M CommandResult :=
  debug ← read allow_user_debug;
  enabled ← read is_enabled;
  if negb (truthy debug) || negb (truthy enabled) then
    mret ((false, "该功能已关闭", 2), [])
  else
    let stream_id := matched_groups self !! "chatid" in
    let qid := message_info_user_info_user_id (message self) in
    let stream_id :=
      if str_falsy stream_id then chat_stream_stream_id (message self)
      else default "" stream_id in
    let '(is_group_chat, _) := get_chat_type_and_target_info stream_id in
    if negb is_group_chat then
      found ← cache_get now qid;
      mret ((true, "你输入的ID是：" +:+ stream_id, 2),
            [ImpressionText found; IsGroupChatText is_group_chat])
    else
      mret ((true, "你输入的ID是：" +:+ stream_id, 2),
            [IsGroupChatText is_group_chat]).

(** ** The handler as a coroutine *)

(** [execute] is an [async def]: a run that misses the cache gives up
    control at [await client.post(...)] inside [post_api], after the lookup
    and before the write, and other runs may go in between.  Where a run
    stands when it has gone as far as it can without the remote end. *)
Inductive Suspension : Type :=
| Finished (r : result HandlerResult)
| AwaitingPost (userId : string) (url : string) (timeout : Z).

(** A run from its start to the request: the flag, the message, the cache
    lookup and, on a miss, the request sent (and counted). *)
Definition execute_until_post (cfg : PluginConfig) (t_get : Z)
    (message : option MaiMessages) (g : Globals) : Suspension * Globals :=
  if negb (truthy (is_enabled g)) then
    (Finished (Return (false, true, None, None, None)), g)
  else
    match message with
    | None => (Finished (Raise AttributeError), g)
    | Some message =>
        let base_info := message_base_info message in
        let userId := py_str (dict_get base_info "user_id") in
        match cache_get t_get userId g with
        | (Return (Some _), g') =>
            (Finished (Return (true, true, None, None, None)), g')
        | (Return None, g') =>
            let url := post_api_url cfg userId in
            (AwaitingPost userId url (api_timeout cfg),
             mkGlobals (is_enabled g') (allow_user_debug g')
               (user_cache_manager g') (_original_func g')
               (build_planner_prompt g') (url :: requests g') (log g'))
        | (Raise e, g') => (Finished (Raise e), g')
        end
    end.

(** The rest of [post_api] once [client.post] has come back with [out]. *)
Definition post_api_after_post (user_id url : string) (out : PostOutcome)
    : M (Z * string) :=
  try_except
    (response ← match out with
                | PostRaises e => raise e
                | PostResponse r => mret r
                end;
     _ ← raise_for_status response;
     data ← response_json response;
     impression ← data_get_impression data 0;
     attitude ← data_get_attitude data "一般";
     _ ← logger (DebugApiSuccess user_id impression);
     mret (impression, attitude))
    (λ e,
       if is_TimeoutException e then
         _ ← logger (ErrorApiTimeout url); mret (0, "一般")
       else if is_RequestError_or_HTTPStatusError e then
         _ ← logger (ErrorApiFailed e); mret (0, "一般")
       else
         _ ← logger (ErrorApiUnknown e); mret (0, "一般")).

(** The rest of a suspended run: the answer is read, the pair is written
    to the cache at clock reading [t_set], the tuple is returned. *)
Definition execute_after_post (t_set : Z) (userId url : string)
    (out : PostOutcome) : M HandlerResult :=
  '(impression, attitude) ← post_api_after_post userId url out;
  _ ← cache_set t_set userId impression attitude;
  mret (true, true, None, None, None).

(** ** The module's import *)

(** The last statements of the module build one daemon thread with target
    [patch] and start it; nothing else in the module calls [patch].  The
    module state once that thread has run. *)
Definition import_module (hook : option Callable) : Globals :=
  (patch (module_globals hook)).2.

(** ** What a run may change *)

(** [g'] differs from [g] at most by entries gone from the store and by
    log records: flags, hook point, captured original, request list and TTL
    are the same. *)
Definition only_purges (g g' : Globals) : Prop :=
  is_enabled g' = is_enabled g
  ∧ allow_user_debug g' = allow_user_debug g
  ∧ _original_func g' = _original_func g
  ∧ build_planner_prompt g' = build_planner_prompt g
  ∧ requests g' = requests g
  ∧ UserInfoCacheManager.ttl (user_cache_manager g')
    = UserInfoCacheManager.ttl (user_cache_manager g)
  ∧ UserInfoCacheManager._cache (user_cache_manager g')
    ⊆ UserInfoCacheManager._cache (user_cache_manager g).

(** One operation of the module on its state: the patching thread, the
    plugin's construction, a run of the handler, a call through the hook
    point, a run of the debug command. *)
Inductive step : Globals → Globals → Prop :=
| step_patch g :
    step g (patch g).2
| step_plugin_init cfg g :
    step g (plugin_init cfg g).2
| step_execute cfg net t_get t_set message g :
    step g (execute cfg net t_get t_set message g).2
| step_invoke_hook (DatabaseMessages ActionInfo : Type)
    (host : PlannerArgs DatabaseMessages ActionInfo
            → result (PlannerResult DatabaseMessages))
    depth now args g :
    step g (invoke_hook host depth now args g).2
| step_debug chat_type now self g :
    step g (DebugCommand_execute chat_type now self g).2.

(** The states the module can be in: it is imported with the hook point
    holding the host's function or nothing, and then operations follow one
    another. *)
Inductive reachable : Globals → Prop :=
| reachable_import hook :
    hook ≠ Some PatchPlanner → reachable (module_globals hook)
| reachable_step g g' :
    reachable g → step g g' → reachable g'.

(** What every reachable state satisfies. *)
Definition module_invariant (g : Globals) : Prop :=
  UserInfoCacheManager.ttl (user_cache_manager g)
  = UserInfoCacheManager.default_ttl
  ∧ keys_agree (user_cache_manager g)
  ∧ (build_planner_prompt g = Some PatchPlanner → is_Some (_original_func g)).

(** ** Scenarios *)

(** Remote ends for the three failures of the spec and for two answers. *)
Definition net_timeout : Network := λ _ _, PostRaises TimeoutException.
Definition net_500 : Network := λ _ _, PostResponse (mkResponse 500 None).
Definition net_malformed : Network := λ _ _, PostResponse (mkResponse 200 None).
Definition net_answers (i : option Z) (a : option string) : Network :=
  λ _ _, PostResponse (mkResponse 200 (Some (JsonObject i a))).


(** The module after import, with the host's function at the hook point,
    once [patch] has run and the plugin has been built from [cfg]. *)
Definition started (cfg : PluginConfig) : Globals :=
  (plugin_init cfg (patch (module_globals (Some HostBuildPlannerPrompt))).2).2.

(** A stub for the host's prompt builder and a call for target user [u1]. *)
Definition stub_original (_ : PlannerArgs unit unit)
    : result (PlannerResult unit) :=
  Return ("Hello", []).

Definition args_for (target : option TargetPersonInfo) : PlannerArgs unit unit :=
  {| self := mkBrainPlanner "0123456789abcdef";
     chat_target_info := target;
     current_available_actions := ∅;
     message_id_list := [];
     chat_content_block := "";
     interest := "";
     prompt_key := "brain_planner_prompt_react" |}.

(** The configuration with the feature switched off. *)
Definition disabled_config : PluginConfig :=
  {| plugin_name := "planner_injector";
     plugin_enabled := false;
     plugin_user_debug := false;
     api_url := "http://url.to.your.zhenxun";
     api_timeout := 10 |}.


(** A host prompt builder that raises. *)
Definition stub_raising (_ : PlannerArgs unit unit)
    : result (PlannerResult unit) :=
  Raise RequestError.

(** The configuration with the debug command allowed. *)
Definition debug_config : PluginConfig :=
  {| plugin_name := "planner_injector";
     plugin_enabled := true;
     plugin_user_debug := true;
     api_url := "http://url.to.your.zhenxun";
     api_timeout := 10 |}.

(** A host for which every stream is a private chat, and the command
    [/debug other] sent by [u1] in stream [s1]. *)
Definition all_private (_ : string) : bool * option TargetPersonInfo :=
  (false, None).

Definition debug_other : DebugCommand :=
  {| matched_groups := {[ "chatid" := "other" ]};
     message := mkCommandMessage "u1" "s1" |}.

(** * Properties *)

(** ** The store *)

Section StoreFacts.

Import UserInfoCacheManager.

Implicit Types (c : UserInfoCacheManager.t) (u : string) (e : UserInfoCacheEntry).

Lemma get_miss c now u :
  _cache c !! u = None → get now u c = (None, c).
Proof. intros H. unfold get. by rewrite H. Qed.

Lemma get_fresh c now u e :
  _cache c !! u = Some e → now - stamp e ≤ ttl c →
  get now u c = (Some (user_info e), c).
Proof.
  intros H Hle. unfold get. rewrite H.
  rewrite bool_decide_eq_false_2; [done | lia].
Qed.

Lemma get_stale c now u e :
  _cache c !! u = Some e → now - stamp e > ttl c →
  get now u c = (None, mk (delete u (_cache c)) (ttl c)).
Proof.
  intros H Hgt. unfold get. rewrite H.
  by rewrite bool_decide_eq_true_2.
Qed.

(** What [get] returns was filed under the key, and was fresh. *)
Lemma get_Some_inv c now u r :
  (get now u c).1 = Some r →
  ∃ e, _cache c !! u = Some e ∧ user_info e = r ∧ now - stamp e ≤ ttl c
       ∧ (get now u c).2 = c.
Proof.
  unfold get. destruct (_cache c !! u) as [e|] eqn:H; [|done].
  case_bool_decide; simpl; [done|].
  intros [= <-]. exists e. repeat split; lia.
Qed.

(** A reading of [None] leaves no entry behind. *)
Lemma get_None_lookup c now u :
  (get now u c).1 = None → _cache (get now u c).2 !! u = None.
Proof.
  unfold get. destruct (_cache c !! u) as [e|] eqn:H; [|done].
  case_bool_decide; simpl; [|done].
  intros _. apply lookup_delete_eq.
Qed.

Lemma get_ttl c now u : ttl (get now u c).2 = ttl c.
Proof.
  unfold get. destruct (_cache c !! u); [|done]. by case_bool_decide.
Qed.

(** [get] never adds an entry, under any key. *)
Lemma get_lookup_None c now u u' :
  _cache c !! u' = None → _cache (get now u c).2 !! u' = None.
Proof.
  intros H. unfold get. destruct (_cache c !! u); [|done].
  case_bool_decide; simpl; [|done].
  rewrite lookup_delete. by case_decide.
Qed.

Lemma run_ops_snoc ops op c :
  run_ops (ops ++ [op]) c = run_op op (run_ops ops c).
Proof. unfold run_ops. by rewrite foldl_app. Qed.

Lemma run_ops_never_written u ops ttl0 :
  Forall (λ op, writes u op = false) ops →
  _cache (run_ops ops (init ttl0)) !! u = None.
Proof.
  induction ops as [|op ops IH] using rev_ind; intros Hall.
  - apply lookup_empty.
  - apply Forall_app in Hall as [Hops Hop]. apply Forall_inv in Hop.
    rewrite run_ops_snoc. specialize (IH Hops).
    destruct op as [now u'|now u' i a]; simpl in *.
    + by apply get_lookup_None.
    + apply bool_decide_eq_false in Hop. by rewrite lookup_insert_ne.
Qed.

Lemma keys_agree_init ttl0 : keys_agree (init ttl0).
Proof. intros u e H. simpl in H. by rewrite lookup_empty in H. Qed.

Lemma keys_agree_get c now u : keys_agree c → keys_agree (get now u c).2.
Proof.
  intros Hc. unfold get. destruct (_cache c !! u) as [e|]; [|done].
  case_bool_decide; simpl; [|done].
  intros u' e' Hu. simpl in Hu.
  apply lookup_delete_Some in Hu as [_ Hu]. by apply Hc.
Qed.

Lemma keys_agree_set c now u i a : keys_agree c → keys_agree (set now u i a c).
Proof.
  intros Hc u' e' H. simpl in H.
  apply lookup_insert_Some in H as [[<- <-]|[_ H]]; [done | by apply Hc].
Qed.

Lemma keys_agree_run_op op c : keys_agree c → keys_agree (run_op op c).
Proof.
  destruct op; simpl; [apply keys_agree_get | apply keys_agree_set].
Qed.

End StoreFacts.

Section StoreClaims.

Import UserInfoCacheManager.

(** C5.  After [set(u, i, a)] stamped [t_set], a [get(u)] whose clock
    reading [t_get] lies within the TTL window returns exactly the record
    [(userid = u, impression = i, attitude = a)] and leaves the store as it
    is.  [set] writes unconditionally: the entry for [u] is the new record
    with the new stamp whatever the store held, and a [set] that follows
    another [set] for [u] gives the very store the later one alone gives, so
    the latest write is the one read back. *)
Theorem set_get_within_ttl (c : UserInfoCacheManager.t) (u : string) (i : Z)
    (a : string) (t_set t_get : Z) :
  t_get - t_set ≤ ttl c →
  get t_get u (set t_set u i a c)
    = (Some (mkUserInfo u i a), set t_set u i a c)
  ∧ _cache (set t_set u i a c) !! u
      = Some (mkUserInfoCacheEntry (mkUserInfo u i a) t_set)
  ∧ (∀ t0 i0 a0,
       set t_set u i a (set t0 u i0 a0 c) = set t_set u i a c
       ∧ get t_get u (set t_set u i a (set t0 u i0 a0 c))
           = (Some (mkUserInfo u i a), set t_set u i a c)).
Proof.
  intros Hle.
  assert (Hlook : _cache (set t_set u i a c) !! u
                  = Some (mkUserInfoCacheEntry (mkUserInfo u i a) t_set))
    by apply lookup_insert_eq.
  assert (Hget : get t_get u (set t_set u i a c)
                 = (Some (mkUserInfo u i a), set t_set u i a c))
    by (by rewrite (get_fresh _ _ _ _ Hlook)).
  split_and!; [done | done |].
  intros t0 i0 a0.
  assert (Hset : set t_set u i a (set t0 u i0 a0 c) = set t_set u i a c)
    by (unfold set; simpl; by rewrite insert_insert_eq).
  by rewrite Hset.
Qed.

(** The spec's scenario: [set("u1", 80, "friendly")] and a [get("u1")] at
    once, on a new store with the default TTL. *)
Lemma set_get_within_ttl_witness :
  get 100 "u1" (set 100 "u1" 80 "friendly" (init default_ttl))
  = (Some (mkUserInfo "u1" 80 "friendly"),
     set 100 "u1" 80 "friendly" (init default_ttl)).
Proof.
  apply (set_get_within_ttl (init default_ttl) "u1" 80 "friendly" 100 100).
  vm_compute. discriminate.
Defined.

(** C6.  With an entry [e] filed under [u]: while [now - stamp e <= ttl]
    [get(u)] returns the record and changes nothing; once
    [now - stamp e > ttl] it returns [None] and the store it leaves is the
    old one with the entry of [u] deleted, on which every later [get(u)],
    at any clock reading and however often repeated, returns [None] again.
    With no entry under [u], [get(u)] returns [None]; in particular it does
    on every store reached from a new one by operations among which no
    [set] is for [u]. *)
Theorem get_expiry (c : UserInfoCacheManager.t) (u : string) (now : Z) :
  (∀ e, _cache c !! u = Some e →
     (now - stamp e ≤ ttl c → get now u c = (Some (user_info e), c))
     ∧ (now - stamp e > ttl c →
          let c' := mk (delete u (_cache c)) (ttl c) in
          get now u c = (None, c')
          ∧ ∀ t1 t2, get t1 u c' = (None, c')
                     ∧ get t2 u (get t1 u c').2 = (None, c')))
  ∧ (_cache c !! u = None → get now u c = (None, c))
  ∧ (∀ ops ttl0, Forall (λ op, writes u op = false) ops →
       get now u (run_ops ops (init ttl0)) = (None, run_ops ops (init ttl0))).
Proof.
  split_and!.
  - intros e He. split.
    + by apply get_fresh.
    + intros Hgt c'. split; [by apply (get_stale c now u e)|].
      assert (Hgone : ∀ t, get t u c' = (None, c'))
        by (intros t; apply get_miss, lookup_delete_eq).
      intros t1 t2. by rewrite !Hgone.
  - apply get_miss.
  - intros ops ttl0 Hops. by apply get_miss, run_ops_never_written.
Qed.

(** An entry written at tick 0 and read at tick 3601 under the default TTL
    is gone, and stays gone at tick 1 and again at tick 2. *)
Lemma get_expiry_witness :
  let c := set 0 "u1" 80 "friendly" (init default_ttl) in
  get 3600 "u1" c = (Some (mkUserInfo "u1" 80 "friendly"), c)
  ∧ get 3601 "u1" c = (None, init default_ttl)
  ∧ get 1 "u1" (get 3601 "u1" c).2 = (None, init default_ttl)
  ∧ get 2 "u1" (get 1 "u1" (get 3601 "u1" c).2).2 = (None, init default_ttl)
  ∧ (get 7 "u2" (run_ops [OpSet 0 "u1" 80 "friendly"; OpGet 5 "u2"]
                     (init default_ttl))).1 = None.
Proof.
  intros c.
  pose proof (get_expiry c "u1" 3600) as (Hfresh & _ & _).
  pose proof (get_expiry c "u1" 3601) as (Hstale & _ & _).
  pose proof (get_expiry c "u2" 7) as (_ & _ & Hnever).
  assert (He : _cache c !! "u1"
               = Some (mkUserInfoCacheEntry (mkUserInfo "u1" 80 "friendly") 0))
    by apply lookup_insert_eq.
  destruct (Hfresh _ He) as [Hf _]. destruct (Hstale _ He) as [_ Hs].
  assert (Hdel : mk (delete "u1" (_cache c)) (ttl c) = init default_ttl).
  { reflexivity. }
  destruct Hs as [Hs1 Hs2]; [vm_compute; done|].
  rewrite Hdel in Hs1, Hs2.
  split_and!.
  - apply Hf. vm_compute. discriminate.
  - exact Hs1.
  - rewrite Hs1. apply (Hs2 1 1).
  - rewrite Hs1. simpl. rewrite (proj1 (Hs2 1 2)). simpl. apply (Hs2 2 2).
  - specialize (Hnever [OpSet 0 "u1" 80 "friendly"; OpGet 5 "u2"] default_ttl).
    rewrite Hnever; [done|]. repeat constructor.
Defined.

(** C10.  [keys_agree] (every entry filed under a key [u] holds a record
    whose [userid] is [u]) holds of a new store and is kept by [get] and by
    [set], hence holds after any run of operations; and a record that
    [get(u)] returns has [userid = u]. *)
Theorem keys_agree_invariant :
  (∀ ttl0, keys_agree (init ttl0))
  ∧ (∀ c now u, keys_agree c → keys_agree (get now u c).2)
  ∧ (∀ c now u i a, keys_agree c → keys_agree (set now u i a c))
  ∧ (∀ ops ttl0, keys_agree (run_ops ops (init ttl0)))
  ∧ (∀ c now u r, keys_agree c → (get now u c).1 = Some r → userid r = u).
Proof.
  split_and!.
  - apply keys_agree_init.
  - apply keys_agree_get.
  - apply keys_agree_set.
  - intros ops ttl0. induction ops as [|op ops IH] using rev_ind.
    + apply keys_agree_init.
    + rewrite run_ops_snoc. by apply keys_agree_run_op.
  - intros c now u r Hc Hr.
    apply get_Some_inv in Hr as (e & He & <- & _). by apply Hc.
Qed.

Lemma keys_agree_invariant_witness :
  keys_agree (set 5 "u2" 1 "一般" (set 0 "u1" 80 "friendly" (init default_ttl))).
Proof.
  destruct keys_agree_invariant as (Hinit & _ & Hset & _).
  apply Hset, Hset, Hinit.
Defined.

End StoreClaims.

(** ** The fetcher *)

Ltac unfold_M :=
  unfold mbind, mret, M_bind, M_ret, raise, try_except, read, logger,
    write_user_cache_manager, write_original_func, write_build_planner_prompt,
    write_flags in *.

(** [post_api] always returns, posts exactly once, and touches nothing of
    the module state but the request list and the log. *)
Lemma post_api_run cfg net u g :
  ∃ p entry,
    post_api cfg net u g
    = (Return p,
       mkGlobals (is_enabled g) (allow_user_debug g) (user_cache_manager g)
         (_original_func g) (build_planner_prompt g)
         (post_api_url cfg u :: requests g) (entry :: log g)).
Proof.
  unfold post_api, client_post, raise_for_status, response_json,
    data_get_impression, data_get_attitude. unfold_M.
  destruct (net _ _) as [e|[status body]]; simpl.
  - destruct e; simpl; eauto.
  - case_bool_decide; simpl; [|eauto].
    destruct body as [[i a|]|]; simpl; eauto.
Qed.

Lemma post_api_raises cfg net u g e :
  net (post_api_url cfg u) (api_timeout cfg) = PostRaises e →
  (post_api cfg net u g).1 = Return (0, "一般").
Proof.
  intros H. unfold post_api, client_post. unfold_M. rewrite H.
  by destruct e.
Qed.

Lemma post_api_response cfg net u g resp :
  net (post_api_url cfg u) (api_timeout cfg) = PostResponse resp →
  (post_api cfg net u g).1 =
    Return (if bool_decide (200 ≤ status_code resp ≤ 299) then
              match json_body resp with
              | Some (JsonObject i a) => (default 0 i, default "一般" a)
              | _ => (0, "一般")
              end
            else (0, "一般")).
Proof.
  intros H. unfold post_api, client_post, raise_for_status, response_json,
    data_get_impression, data_get_attitude. unfold_M. rewrite H.
  destruct resp as [status body]; simpl.
  case_bool_decide; simpl; [|done].
  by destruct body as [[i a|]|].
Qed.

(** C3.  [post_api] returns a pair for every user, configuration, remote
    end and module state.  When the request raises (a timeout, any other
    transport error, any exception at all), when the status is not 2xx, and
    when the body does not decode or is not a JSON object, the pair is
    [(0, "一般")].  On a 2xx response whose body is a JSON object the pair is
    the object's [impression] and [attitude], with [0] and ["一般"] in place
    of a missing field. *)
Theorem post_api_never_raises (cfg : PluginConfig) (net : Network)
    (user_id : string) (g : Globals) :
  let out := net (post_api_url cfg user_id) (api_timeout cfg) in
  let r := (post_api cfg net user_id g).1 in
  returns r = true
  ∧ (∀ e, out = PostRaises e → r = Return (0, "一般"))
  ∧ (∀ resp, out = PostResponse resp →
       ¬ (200 ≤ status_code resp ≤ 299) → r = Return (0, "一般"))
  ∧ (∀ resp, out = PostResponse resp →
       json_body resp = None ∨ json_body resp = Some JsonNotObject →
       r = Return (0, "一般"))
  ∧ (∀ resp i a, out = PostResponse resp →
       200 ≤ status_code resp ≤ 299 →
       json_body resp = Some (JsonObject i a) →
       r = Return (default 0 i, default "一般" a)).
Proof.
  intros out r. subst out r. split_and!.
  - destruct (post_api_run cfg net user_id g) as (p & entry & ->). done.
  - intros e He. by apply post_api_raises with e.
  - intros resp Hr Hs. rewrite (post_api_response _ _ _ _ _ Hr).
    by rewrite bool_decide_eq_false_2.
  - intros resp Hr Hb. rewrite (post_api_response _ _ _ _ _ Hr).
    case_bool_decide; [|done]. by destruct Hb as [-> | ->].
  - intros resp i a Hr Hs Hb. rewrite (post_api_response _ _ _ _ _ Hr).
    by rewrite bool_decide_eq_true_2, Hb.
Qed.

Lemma post_api_never_raises_witness :
  let g := module_globals (Some HostBuildPlannerPrompt) in
  (post_api default_config net_timeout "u1" g).1 = Return (0, "一般")
  ∧ (post_api default_config net_500 "u1" g).1 = Return (0, "一般")
  ∧ (post_api default_config net_malformed "u1" g).1 = Return (0, "一般")
  ∧ (post_api default_config (net_answers (Some 80) (Some "friendly")) "u1" g).1
      = Return (80, "friendly")
  ∧ (post_api default_config (net_answers None None) "u1" g).1
      = Return (0, "一般").
Proof.
  intros g. split_and!.
  - destruct (post_api_never_raises default_config net_timeout "u1" g)
      as (_ & H & _).
    by apply (H TimeoutException).
  - destruct (post_api_never_raises default_config net_500 "u1" g)
      as (_ & _ & H & _).
    apply (H (mkResponse 500 None)); [done|]. simpl. lia.
  - destruct (post_api_never_raises default_config net_malformed "u1" g)
      as (_ & _ & _ & H & _).
    apply (H (mkResponse 200 None)); [done|]. by left.
  - destruct (post_api_never_raises default_config
                (net_answers (Some 80) (Some "friendly")) "u1" g)
      as (_ & _ & _ & _ & H).
    apply (H (mkResponse 200 (Some (JsonObject (Some 80) (Some "friendly"))))
             (Some 80) (Some "friendly"));
      [done | simpl; lia | done].
  - destruct (post_api_never_raises default_config (net_answers None None) "u1" g)
      as (_ & _ & _ & _ & H).
    apply (H (mkResponse 200 (Some (JsonObject None None))) None None);
      [done | simpl; lia | done].
Defined.

(** ** The enrichment step *)

Section ExecuteFacts.

Import UserInfoCacheManager.

Lemma Globals_eta g :
  mkGlobals (is_enabled g) (allow_user_debug g) (user_cache_manager g)
    (_original_func g) (build_planner_prompt g) (requests g) (log g) = g.
Proof. by destruct g. Qed.

(** The pair [post_api] returns depends on the remote end only. *)
Lemma post_api_value cfg net u g g' :
  (post_api cfg net u g).1 = (post_api cfg net u g').1.
Proof.
  destruct (net (post_api_url cfg u) (api_timeout cfg)) as [e|resp] eqn:H.
  - by rewrite !(post_api_raises _ _ _ _ _ H).
  - by rewrite !(post_api_response _ _ _ _ _ H).
Qed.

Lemma execute_disabled cfg net t_get t_set message g :
  truthy (is_enabled g) = false →
  execute cfg net t_get t_set message g
  = (Return (false, true, None, None, None), g).
Proof. intros H. unfold execute. unfold_M. by rewrite H. Qed.

Lemma execute_hit cfg net t_get t_set m g r :
  truthy (is_enabled g) = true →
  (get t_get (py_str (dict_get (message_base_info m) "user_id"))
     (user_cache_manager g)).1 = Some r →
  execute cfg net t_get t_set (Some m) g
  = (Return (true, true, None, None, None), g).
Proof.
  intros Hen Hr. unfold execute, cache_get. unfold_M. rewrite Hen. simpl.
  destruct (get_Some_inv _ _ _ _ Hr) as (e & _ & _ & _ & Hc).
  destruct (get _ _ _) as [r' c'] eqn:Hg. simpl in *. subst.
  by rewrite Globals_eta.
Qed.

Lemma execute_miss cfg net t_get t_set m g :
  let u := py_str (dict_get (message_base_info m) "user_id") in
  truthy (is_enabled g) = true →
  (get t_get u (user_cache_manager g)).1 = None →
  ∃ i a entry,
    (post_api cfg net u g).1 = Return (i, a)
    ∧ execute cfg net t_get t_set (Some m) g
      = (Return (true, true, None, None, None),
         mkGlobals (is_enabled g) (allow_user_debug g)
           (set t_set u i a (get t_get u (user_cache_manager g)).2)
           (_original_func g) (build_planner_prompt g)
           (post_api_url cfg u :: requests g) (entry :: log g)).
Proof.
  intros u Hen Hr.
  destruct (get t_get u (user_cache_manager g)) as [r' c'] eqn:Hg.
  simpl in Hr. subst r'.
  set (g1 := mkGlobals (is_enabled g) (allow_user_debug g) c'
               (_original_func g) (build_planner_prompt g) (requests g) (log g)).
  destruct (post_api_run cfg net u g1) as ([i a] & entry & Hp).
  exists i, a, entry. split.
  - rewrite (post_api_value cfg net u g g1). by rewrite Hp.
  - unfold execute, cache_get, cache_set. unfold_M. rewrite Hen. simpl.
    fold u. rewrite Hg. simpl. fold g1. by rewrite Hp.
Qed.



End ExecuteFacts.

Section ExecuteClaims.

Import UserInfoCacheManager.



(** A run is its part up to the request followed, when it was suspended
    there, by its part after the answer. *)
Lemma execute_phases cfg net t_get t_set message g :
  execute cfg net t_get t_set message g
  = match execute_until_post cfg t_get message g with
    | (Finished r, g') => (r, g')
    | (AwaitingPost userId url timeout, g') =>
        execute_after_post t_set userId url (net url timeout) g'
    end.
Proof.
  unfold execute, execute_until_post, execute_after_post, post_api,
    post_api_after_post, client_post, cache_get, cache_set.
  unfold_M.
  destruct (truthy (is_enabled g)); simpl; [|done].
  destruct message as [m|]; [|done].
  destruct (get _ _ _) as [[found|] c']; simpl; [done|].
  by destruct (net _ _) as [e|resp].
Qed.


(** C8, as the code has it.  With the flag off (or not yet set) the handler
    does nothing and does not raise, whatever the message, the clock and the
    remote end: the module state (store, request list, log) is untouched and
    the tuple returned is [(False, True, None, None, None)].  Its second
    component tells the host to go on with the pipeline; its first, the
    host's success flag, is [False]. *)
Theorem execute_disabled_noop (cfg : PluginConfig) (net : Network)
    (t_get t_set : Z) (message : option MaiMessages) (g : Globals) :
  truthy (is_enabled g) = false →
  ∃ r, execute cfg net t_get t_set message g = (Return r, g)
       ∧ r = (false, true, None, None, None)
       ∧ handler_continue r = true
       ∧ handler_success r = false.
Proof.
  intros H. eexists. split; [by apply execute_disabled|done].
Qed.

Lemma execute_disabled_noop_witness :
  let g := (plugin_init disabled_config
              (module_globals (Some HostBuildPlannerPrompt))).2 in
  (execute disabled_config (net_answers (Some 80) None) 10 11 (message_of "u1") g)
  = (Return (false, true, None, None, None), g).
Proof.
  intros g.
  destruct (execute_disabled_noop disabled_config (net_answers (Some 80) None)
              10 11 (message_of "u1") g eq_refl) as (r & Hr & -> & _).
  exact Hr.
Defined.

(** C8 as the spec words it fails: the tuple a disabled handler returns does
    not carry the host's success flag. *)
Lemma execute_disabled_reports_no_success :
  ¬ (∀ g, truthy (is_enabled g) = false →
       ∃ r, (execute disabled_config net_timeout 10 11 (message_of "u1") g).1
            = Return r
            ∧ handler_success r = true).
Proof.
  intros H.
  destruct (H (plugin_init disabled_config
                 (module_globals (Some HostBuildPlannerPrompt))).2 eq_refl)
    as (r & Hr & Hs).
  vm_compute in Hr. injection Hr as <-. discriminate Hs.
Qed.

End ExecuteClaims.

(** ** The interceptor *)

Section InterceptorFacts.

Import UserInfoCacheManager.

Context {DatabaseMessages ActionInfo : Type}.
Variable host : PlannerArgs DatabaseMessages ActionInfo
                → result (PlannerResult DatabaseMessages).

Implicit Types (args : PlannerArgs DatabaseMessages ActionInfo) (g : Globals).

(** The wrapper over the host's function, step by step. *)
Lemma call_wrapper_over_host depth now args g :
  _original_func g = Some HostBuildPlannerPrompt →
  call host (S depth) now PatchPlanner args g =
    match host args with
    | Raise e => (Raise e, g)
    | Return (prompt, ids) =>
        match chat_target_info args with
        | None => (Raise AttributeError, g)
        | Some info =>
            match get now (user_id info) (user_cache_manager g) with
            | (Some found, c') =>
                (Return (prompt +:+ favorability_prompt found, ids),
                 mkGlobals (is_enabled g) (allow_user_debug g) c'
                   (_original_func g) (build_planner_prompt g) (requests g)
                   (InfoInjected (str_slice_to 5 (chat_id (self args)))
                      :: log g))
            | (None, c') =>
                (Return (prompt, ids),
                 mkGlobals (is_enabled g) (allow_user_debug g) c'
                   (_original_func g) (build_planner_prompt g) (requests g)
                   (log g))
            end
        end
    end.
Proof.
  intros Ho. simpl. unfold _patch_planner, cache_get. unfold_M. rewrite Ho.
  destruct depth; simpl;
    (destruct (host args) as [[prompt ids]|e]; [|done];
     destruct (chat_target_info args) as [info|]; [|done];
     destruct (get _ _ _) as [[found|] c']; simpl; by rewrite ?Ho).
Qed.

(** A wrapper call made for no target user does not return. *)
Lemma call_none_target depth now args g :
  chat_target_info args = None →
  returns (call host depth now PatchPlanner args g).1 = false.
Proof.
  intros Hn. destruct depth as [|depth]; [done|].
  simpl. unfold _patch_planner. unfold_M.
  destruct (_original_func g) as [f|]; [|done].
  destruct (call host depth now f args g) as [[[prompt ids]|e] g']; [|done].
  by rewrite Hn.
Qed.

(** Whatever is called, a message list that comes back is the host's. *)
Lemma call_message_list depth now f args g prompt ids :
  (call host depth now f args g).1 = Return (prompt, ids) →
  ∃ prompt0, host args = Return (prompt0, ids).
Proof.
  revert f g prompt ids.
  induction depth as [|depth IH]; intros [|] g prompt ids; simpl;
    try (intros ->; by eexists); try done.
  unfold _patch_planner, cache_get. unfold_M.
  destruct (_original_func g) as [f|]; [|done].
  destruct (call host depth now f args g) as [[[prompt1 ids1]|e] g'] eqn:Hc;
    [|done].
  assert (Hh : ∃ prompt0, host args = Return (prompt0, ids1))
    by (apply (IH f g prompt1); by rewrite Hc).
  destruct (chat_target_info args) as [info|]; [|done].
  destruct (get _ _ _) as [[found|] c']; simpl; by intros [= _ <-].
Qed.

(** A wrapper whose [_original_func] is the wrapper itself only uses up the
    interpreter's frames. *)
Lemma call_wrapper_over_itself depth now args g :
  _original_func g = Some PatchPlanner →
  call host depth now PatchPlanner args g = (Raise RecursionError, g).
Proof.
  intros Ho. induction depth as [|depth IH]; [done|].
  simpl. unfold _patch_planner. unfold_M. by rewrite Ho, IH.
Qed.

Lemma invoke_hook_wrapper depth now args g :
  build_planner_prompt g = Some PatchPlanner →
  invoke_hook host depth now args g = call host depth now PatchPlanner args g.
Proof. intros Hb. unfold invoke_hook. unfold_M. by rewrite Hb. Qed.

End InterceptorFacts.

Section PatchFacts.

Lemma patch_over_host g :
  build_planner_prompt g = Some HostBuildPlannerPrompt →
  patch g
  = (Return (),
     mkGlobals (is_enabled g) (allow_user_debug g) (user_cache_manager g)
       (Some HostBuildPlannerPrompt) (Some PatchPlanner) (requests g)
       (InfoPatched :: InfoPatching :: log g)).
Proof. intros Hb. unfold patch. unfold_M. by rewrite Hb. Qed.

Lemma patch_over_wrapper g :
  build_planner_prompt g = Some PatchPlanner →
  patch g
  = (Return (),
     mkGlobals (is_enabled g) (allow_user_debug g) (user_cache_manager g)
       (Some PatchPlanner) (Some PatchPlanner) (requests g)
       (ErrorPatchFailed :: InfoPatching :: log g)).
Proof. intros Hb. unfold patch. unfold_M. by rewrite Hb. Qed.

Lemma patch_without_hook g :
  build_planner_prompt g = None →
  patch g
  = (Return (),
     mkGlobals (is_enabled g) (allow_user_debug g) (user_cache_manager g)
       (_original_func g) None (requests g)
       (ErrorPatchException AttributeError :: log g)).
Proof. intros Hb. unfold patch. unfold_M. rewrite Hb. simpl. by rewrite Hb. Qed.

End PatchFacts.

Section InterceptorClaims.

Import UserInfoCacheManager.

Context {DatabaseMessages ActionInfo : Type}.
Variable host : PlannerArgs DatabaseMessages ActionInfo
                → result (PlannerResult DatabaseMessages).

(** The wrapper installed over the host's function, called for a user with
    a fresh entry. *)
Lemma invoke_hook_fresh depth now (args : PlannerArgs DatabaseMessages ActionInfo)
    g info e prompt ids :
  installed g →
  chat_target_info args = Some info →
  _cache (user_cache_manager g) !! user_id info = Some e →
  now - stamp e ≤ ttl (user_cache_manager g) →
  host args = Return (prompt, ids) →
  (invoke_hook host (S depth) now args g).1
    = Return (prompt +:+ favorability_prompt (user_info e), ids).
Proof.
  intros [Ho Hb] Hinfo He Hle Hhost.
  rewrite (invoke_hook_wrapper _ _ _ _ _ Hb).
  rewrite (call_wrapper_over_host _ _ _ _ _ Ho), Hhost, Hinfo.
  by rewrite (get_fresh _ _ _ _ He Hle).
Qed.

(** C2.  With the wrapper installed, a call for a target user for whom the
    store holds no entry, or only one past its TTL, gives exactly what the
    host's function gives, prompt and message list alike.  And whenever a
    call through the hook returns at all, its message list is the one the
    host's function returned. *)
Theorem wrapper_transparent (depth : nat) (now : Z)
    (args : PlannerArgs DatabaseMessages ActionInfo) (g : Globals)
    (info : TargetPersonInfo) :
  installed g →
  chat_target_info args = Some info →
  (_cache (user_cache_manager g) !! user_id info = None
   ∨ ∃ e, _cache (user_cache_manager g) !! user_id info = Some e
          ∧ now - stamp e > ttl (user_cache_manager g)) →
  (invoke_hook host (S depth) now args g).1 = host args
  ∧ ∀ depth' now' args' g' prompt ids,
      (invoke_hook host depth' now' args' g').1 = Return (prompt, ids) →
      ∃ prompt0, host args' = Return (prompt0, ids).
Proof.
  intros [Ho Hb] Hinfo Hnone. split.
  - rewrite (invoke_hook_wrapper _ _ _ _ _ Hb).
    rewrite (call_wrapper_over_host _ _ _ _ _ Ho), Hinfo.
    destruct (host args) as [[prompt ids]|err]; [|done].
    destruct Hnone as [Hn | (e & He & Hgt)].
    + by rewrite (get_miss _ _ _ Hn).
    + by rewrite (get_stale _ _ _ _ He Hgt).
  - intros depth' now' args' g' prompt ids. unfold invoke_hook. unfold_M.
    destruct (build_planner_prompt g') as [f|]; [|done].
    apply call_message_list.
Qed.

(** C9.  A call through the hook with the wrapper bound there and
    [chat_target_info = None] never returns; when the wrapper is installed
    over the host's function and that function returns, what is raised is
    the [AttributeError] of [chat_target_info.user_id], the module state
    being left as it was. *)
Theorem wrapper_none_target_raises (depth : nat) (now : Z)
    (args : PlannerArgs DatabaseMessages ActionInfo) (g : Globals) :
  chat_target_info args = None →
  build_planner_prompt g = Some PatchPlanner →
  returns (invoke_hook host depth now args g).1 = false
  ∧ (∀ r, installed g → host args = Return r →
       invoke_hook host (S depth) now args g = (Raise AttributeError, g)).
Proof.
  intros Hnone Hb. rewrite !(invoke_hook_wrapper _ _ _ _ _ Hb). split.
  - by apply call_none_target.
  - intros [prompt ids] [Ho _] Hhost.
    by rewrite (call_wrapper_over_host _ _ _ _ _ Ho), Hhost, Hnone.
Qed.

End InterceptorClaims.

Section InstallClaims.

(** C7, as the code has it.  [patch] never raises.  The module's import
    starts it in one thread, and after that run on a hook point holding the
    host's function the hook point is singly wrapped: the wrapper is bound
    and delegates to the host's function, not to itself.  The same holds of
    any run of [patch] on a hook point holding the host's function, which
    also logs success and changes neither the store nor the flags.  [patch]
    has no guard against a second run: on a hook point that already holds
    the wrapper it captures the wrapper itself as [_original_func], logs the
    injection as failed, and from then on every call through the hook, for
    any host function, at any depth, raises [RecursionError]. *)
Theorem patch_installs_without_guard :
  (∀ g, (patch g).1 = Return ())
  ∧ installed (import_module (Some HostBuildPlannerPrompt))
  ∧ (∀ g, build_planner_prompt g = Some HostBuildPlannerPrompt →
       installed (patch g).2
       ∧ user_cache_manager (patch g).2 = user_cache_manager g
       ∧ is_enabled (patch g).2 = is_enabled g
       ∧ allow_user_debug (patch g).2 = allow_user_debug g
       ∧ log (patch g).2 = InfoPatched :: InfoPatching :: log g)
  ∧ (∀ g, build_planner_prompt g = Some PatchPlanner →
       _original_func (patch g).2 = Some PatchPlanner
       ∧ build_planner_prompt (patch g).2 = Some PatchPlanner
       ∧ ¬ installed (patch g).2
       ∧ log (patch g).2 = ErrorPatchFailed :: InfoPatching :: log g
       ∧ ∀ (DatabaseMessages ActionInfo : Type)
           (host : PlannerArgs DatabaseMessages ActionInfo
                   → result (PlannerResult DatabaseMessages))
           depth now args,
           invoke_hook host depth now args (patch g).2
           = (Raise RecursionError, (patch g).2)).
Proof.
  split_and!.
  - intros g. destruct (build_planner_prompt g) as [[|]|] eqn:Hb.
    + by rewrite (patch_over_host _ Hb).
    + by rewrite (patch_over_wrapper _ Hb).
    + by rewrite (patch_without_hook _ Hb).
  - done.
  - intros g Hb. by rewrite (patch_over_host _ Hb).
  - intros g Hb. rewrite (patch_over_wrapper _ Hb). split_and!; try done.
    + by intros [Ho _].
    + intros DM AI host depth now args.
      rewrite invoke_hook_wrapper by done.
      by rewrite call_wrapper_over_itself.
Qed.

(** The module imported over the host's function and built with the
    default configuration: the second run of [patch] breaks the hook. *)
Lemma patch_installs_without_guard_witness :
  installed (started default_config)
  ∧ invoke_hook stub_original 5 100 (args_for (Some (mkTargetPersonInfo "u1")))
      (patch (started default_config)).2
    = (Raise RecursionError, (patch (started default_config)).2).
Proof.
  destruct patch_installs_without_guard as (_ & _ & Hfirst & Hsecond).
  split.
  - destruct (Hfirst (module_globals (Some HostBuildPlannerPrompt)) eq_refl)
      as [[Ho Hb] _].
    by split.
  - destruct (Hsecond (started default_config) eq_refl) as (_ & _ & _ & _ & H).
    apply H.
Defined.

(** C7 as the spec words it fails: a second run of [patch] captures the
    wrapper as [_original_func], logs a failure, and from then on every call
    through the hook runs out of frames. *)
Lemma patch_twice_wraps_itself :
  let g1 := (patch (module_globals (Some HostBuildPlannerPrompt))).2 in
  let g2 := (patch g1).2 in
  installed g1
  ∧ _original_func g2 = Some PatchPlanner
  ∧ build_planner_prompt g2 = Some PatchPlanner
  ∧ ¬ installed g2
  ∧ log g2 = [ErrorPatchFailed; InfoPatching; InfoPatched; InfoPatching]
  ∧ ∀ depth now,
      (invoke_hook stub_original depth now
         (args_for (Some (mkTargetPersonInfo "u1"))) g2).1
      = Raise RecursionError.
Proof.
  intros g1 g2. split_and!; try done.
  - by intros [Ho _].
  - intros depth now.
    rewrite (invoke_hook_wrapper _ _ _ _ g2 eq_refl).
    by rewrite (call_wrapper_over_itself _ _ _ _ g2 eq_refl).
Qed.

End InstallClaims.

Section ScenarioClaims.

(** C1.  With the wrapper installed over the host's function, every call
    for a target user under whose id the store holds an entry still within
    its TTL returns the host's prompt followed by the sentence built from
    the cached record, and the host's message list; the sentence is the
    f-string of the source filled with the record's [impression] and
    [attitude], and it stands once, after the host's prompt.  In the spec's
    scenario ([set("u1", 80, "friendly")], a stub returning [("Hello", [])],
    target user [u1]) the prompt returned is ["Hello"] followed by the
    sentence for 80 and [friendly], and the message list is the empty one. *)
Theorem wrapper_appends_sentence :
  (∀ (DatabaseMessages ActionInfo : Type)
     (host : PlannerArgs DatabaseMessages ActionInfo
             → result (PlannerResult DatabaseMessages))
     (depth : nat) (now : Z) (args : PlannerArgs DatabaseMessages ActionInfo)
     (g : Globals) (info : TargetPersonInfo) (e : UserInfoCacheEntry)
     (prompt : string) (ids : list (string * DatabaseMessages)),
     installed g →
     chat_target_info args = Some info →
     UserInfoCacheManager._cache (user_cache_manager g) !! user_id info = Some e →
     now - stamp e ≤ UserInfoCacheManager.ttl (user_cache_manager g) →
     host args = Return (prompt, ids) →
     (invoke_hook host (S depth) now args g).1
       = Return (prompt +:+ favorability_prompt (user_info e), ids)
     ∧ favorability_prompt (user_info e)
       = String "010"%char "你对当前用户的好感度是"
         +:+ pretty (impression (user_info e)) +:+ "，态度是"
         +:+ attitude (user_info e)
         +:+ "，好感度越高，选择reply的概率越大。好感度>50则有75%的概率reply。")
  ∧ (let g := (cache_set 100 "u1" 80 "friendly" (started default_config)).2 in
     (invoke_hook stub_original 1 100
        (args_for (Some (mkTargetPersonInfo "u1"))) g).1
     = Return ("Hello" +:+ String "010"%char
                 "你对当前用户的好感度是80，态度是friendly，好感度越高，选择reply的概率越大。好感度>50则有75%的概率reply。",
               [])).
Proof.
  split.
  - intros DM AI host depth now args g info e prompt ids Hi Hinfo He Hle Hhost.
    split; [|done]. by apply invoke_hook_fresh with info.
  - intros g.
    apply (invoke_hook_fresh stub_original 0 100
             (args_for (Some (mkTargetPersonInfo "u1"))) g
             (mkTargetPersonInfo "u1")
             (mkUserInfoCacheEntry (mkUserInfo "u1" 80 "friendly") 100)
             "Hello" []); done.
Qed.

(** A record with a negative score, read at the last tick of its window. *)
Lemma wrapper_appends_sentence_witness :
  let g := (cache_set 0 "u2" (-3) "一般" (started default_config)).2 in
  (invoke_hook stub_original 1 3600
     (args_for (Some (mkTargetPersonInfo "u2"))) g).1
  = Return ("Hello" +:+ String "010"%char
              "你对当前用户的好感度是-3，态度是一般，好感度越高，选择reply的概率越大。好感度>50则有75%的概率reply。",
            []).
Proof.
  intros g.
  destruct (proj1 wrapper_appends_sentence unit unit stub_original 0%nat 3600
              (args_for (Some (mkTargetPersonInfo "u2"))) g
              (mkTargetPersonInfo "u2")
              (mkUserInfoCacheEntry (mkUserInfo "u2" (-3) "一般") 0)
              "Hello" []) as [H _]; [done | done | done | done | done |].
  exact H.
Defined.

(** The same call with nothing cached, and with an entry written at tick 0
    and read at tick 3601. *)
Lemma wrapper_transparent_witness :
  (invoke_hook stub_original 1 100 (args_for (Some (mkTargetPersonInfo "u1")))
     (started default_config)).1 = Return ("Hello", [])
  ∧ (invoke_hook stub_original 1 3601 (args_for (Some (mkTargetPersonInfo "u1")))
       (cache_set 0 "u1" 80 "friendly" (started default_config)).2).1
    = Return ("Hello", []).
Proof.
  split.
  - apply (wrapper_transparent stub_original 0 100
             (args_for (Some (mkTargetPersonInfo "u1")))
             (started default_config) (mkTargetPersonInfo "u1"));
      [done | done | by left].
  - apply (wrapper_transparent stub_original 0 3601
             (args_for (Some (mkTargetPersonInfo "u1")))
             (cache_set 0 "u1" 80 "friendly" (started default_config)).2
             (mkTargetPersonInfo "u1")); [done | done |].
    right. eexists. split; [reflexivity | done].
Defined.

Lemma wrapper_none_target_raises_witness :
  invoke_hook stub_original 1 100 (args_for None) (started default_config)
  = (Raise AttributeError, started default_config).
Proof.
  destruct (wrapper_none_target_raises stub_original 0 100 (args_for None)
              (started default_config) eq_refl eq_refl) as [_ H].
  by apply (H ("Hello", [])).
Defined.

End ScenarioClaims.

(** * Further properties *)

(** ** The store: independence of users, lazy eviction *)

Section StoreFrame.

Import UserInfoCacheManager.

Implicit Types (c : UserInfoCacheManager.t) (u : string).

Lemma get_lookup_ne c now u u' :
  u ≠ u' → _cache (get now u c).2 !! u' = _cache c !! u'.
Proof.
  intros Hne. unfold get. destruct (_cache c !! u); [|done].
  case_bool_decide; simpl; [|done]. by rewrite lookup_delete_ne.
Qed.

Lemma get_subseteq c now u : _cache (get now u c).2 ⊆ _cache c.
Proof.
  unfold get. destruct (_cache c !! u); [|done].
  case_bool_decide; simpl; [|done]. apply delete_subseteq.
Qed.

(** What [get] answers depends on the entry under the key and on the TTL
    only. *)
Lemma get_fst_ext c c' now u :
  _cache c !! u = _cache c' !! u → ttl c = ttl c' →
  (get now u c).1 = (get now u c').1.
Proof.
  intros Hl Ht. unfold get. rewrite Hl, Ht.
  destruct (_cache c' !! u); [|done]. by case_bool_decide.
Qed.

(** Operations for one user leave every other user's entry as it is, stale
    or not: a [set] or a [get] for [u] changes neither the entry filed under
    another id [u'] nor what a later [get(u')] answers.  So an entry past its
    TTL stays in the store until its own user is looked up. *)
Theorem store_other_users_untouched (c : UserInfoCacheManager.t) (now : Z)
    (u u' : string) :
  u ≠ u' →
  _cache (get now u c).2 !! u' = _cache c !! u'
  ∧ (∀ i a, _cache (set now u i a c) !! u' = _cache c !! u')
  ∧ (∀ now', (get now' u' (get now u c).2).1 = (get now' u' c).1)
  ∧ (∀ now' i a, (get now' u' (set now u i a c)).1 = (get now' u' c).1).
Proof.
  intros Hne.
  assert (Hset : ∀ i a, _cache (set now u i a c) !! u' = _cache c !! u')
    by (intros i a; simpl; by rewrite lookup_insert_ne).
  split_and!.
  - by apply get_lookup_ne.
  - exact Hset.
  - intros now'. apply get_fst_ext; [by apply get_lookup_ne | apply get_ttl].
  - intros now' i a. by apply get_fst_ext; [apply Hset|].
Qed.

(** An entry of [u2] written at tick 0 is still in the store at tick 9999
    after reads and writes for [u1]. *)
Lemma store_other_users_untouched_witness :
  let c := set 0 "u2" 5 "一般" (init default_ttl) in
  _cache (get 9999 "u1" (set 9999 "u1" 80 "friendly" c)).2 !! "u2"
  = Some (mkUserInfoCacheEntry (mkUserInfo "u2" 5 "一般") 0).
Proof.
  intros c.
  destruct (store_other_users_untouched (set 9999 "u1" 80 "friendly" c)
              9999 "u1" "u2") as (H & _); [done|].
  rewrite H.
  destruct (store_other_users_untouched c 9999 "u1" "u2") as (_ & H' & _);
    [done|].
  rewrite H'. reflexivity.
Defined.

(** [get] never adds to the store and never changes the TTL: the store it
    leaves is a sub-map of the one it found.  Asked again at the same clock
    reading it answers the same and changes nothing more. *)
Theorem get_only_purges (c : UserInfoCacheManager.t) (now : Z) (u : string) :
  _cache (get now u c).2 ⊆ _cache c
  ∧ ttl (get now u c).2 = ttl c
  ∧ get now u (get now u c).2 = get now u c.
Proof.
  split_and!; [apply get_subseteq | apply get_ttl |].
  destruct (_cache c !! u) as [e|] eqn:He.
  - destruct (decide (now - stamp e > ttl c)) as [Hgt|Hle].
    + rewrite (get_stale _ _ _ _ He Hgt). simpl.
      apply get_miss. simpl. apply lookup_delete_eq.
    + assert (Hf : get now u c = (Some (user_info e), c))
        by (apply get_fresh; [done | lia]).
      by rewrite !Hf.
  - by rewrite !(get_miss _ _ _ He).
Qed.

End StoreFrame.

(** ** The fetcher: the URL, the request and the log *)

Section FetcherFacts.

Implicit Types (chars : list Ascii.ascii) (s t : string) (c : Ascii.ascii).

Lemma app_one_not_empty t c : t +:+ String c "" ≠ "".
Proof. by destruct t. Qed.

Lemma rstrip_app_one chars s c :
  c ∈ chars → rstrip chars (s +:+ String c "") = rstrip chars s.
Proof.
  intros Hc. induction s as [|a s IH]; simpl.
  - by rewrite bool_decide_eq_true_2.
  - by rewrite IH.
Qed.

Lemma rstrip_no_trailing chars s t c :
  c ∈ chars → rstrip chars s ≠ t +:+ String c "".
Proof.
  intros Hc. revert t. induction s as [|a s IH]; intros t; simpl.
  - intros H. by apply (app_one_not_empty t c).
  - destruct (rstrip chars s) as [|b r] eqn:Hr.
    + case_bool_decide as Ha.
      * intros H. by apply (app_one_not_empty t c).
      * destruct t as [|a' t']; simpl.
        -- by intros [= ->].
        -- intros [= _ H]. by apply (app_one_not_empty t' c).
    + destruct t as [|a' t']; simpl; [done|].
      intros [= _ H]. by apply (IH t').
Qed.

Lemma rstrip_suffix chars s :
  ∃ t, s = rstrip chars s +:+ t ∧ rstrip chars t = "".
Proof.
  induction s as [|a s (t & Hs & Ht)]; simpl.
  - by exists "".
  - destruct (rstrip chars s) as [|b r] eqn:Hr.
    + change (s = t) in Hs. subst t. case_bool_decide as Ha.
      * exists (String a s). split; [done|]. simpl.
        by rewrite Ht, bool_decide_eq_true_2.
      * exists s. by split.
    + exists t. split; [|done].
      change (String a s = String a (String b r +:+ t)). by rewrite <- Hs.
Qed.

(** [rstrip] drops a suffix made of the given characters and nothing else:
    the string is the result followed by a piece that strips to nothing, and
    the result does not end in one of the characters.  For the request URL:
    it is the configured base without its trailing slashes, then
    [/get_info/], then the user id, so a base written with one more
    trailing slash gives the same URL. *)
Theorem post_api_url_trailing_slashes (cfg : PluginConfig) (user_id : string) :
  (∃ base slashes,
     api_url cfg = base +:+ slashes
     ∧ rstrip ["/"%char] slashes = ""
     ∧ (∀ t, base ≠ t +:+ "/")
     ∧ post_api_url cfg user_id = base +:+ "/get_info/" +:+ user_id)
  ∧ post_api_url
      (mkPluginConfig (plugin_name cfg) (plugin_enabled cfg) (plugin_user_debug cfg)
         (api_url cfg +:+ "/") (api_timeout cfg)) user_id
    = post_api_url cfg user_id.
Proof.
  split.
  - destruct (rstrip_suffix ["/"%char] (api_url cfg)) as (t & Hs & Ht).
    exists (rstrip ["/"%char] (api_url cfg)), t. split_and!; [done | done | | done].
    intros t'. apply rstrip_no_trailing. apply list_elem_of_here.
  - unfold post_api_url. simpl. rewrite rstrip_app_one; [done|].
    apply list_elem_of_here.
Qed.

(** Every call of [post_api] posts exactly one request, to the URL above,
    writes exactly one log record and leaves the flags, the store and the
    hook point alone.  The record tells the outcome: a timeout is logged as a
    timeout (although the exception is a request error too), another request
    error or a non-2xx status as a failed request, an undecodable body or a
    body that is no JSON object as an unknown error, an answer at debug
    level with the impression returned. *)
Theorem post_api_effects (cfg : PluginConfig) (net : Network)
    (user_id : string) (g : Globals) :
  let url := post_api_url cfg user_id in
  let out := net url (api_timeout cfg) in
  let g' := (post_api cfg net user_id g).2 in
  requests g' = url :: requests g
  ∧ user_cache_manager g' = user_cache_manager g
  ∧ is_enabled g' = is_enabled g
  ∧ allow_user_debug g' = allow_user_debug g
  ∧ _original_func g' = _original_func g
  ∧ build_planner_prompt g' = build_planner_prompt g
  ∧ ∃ entry, log g' = entry :: log g
      ∧ (out = PostRaises TimeoutException → entry = ErrorApiTimeout url)
      ∧ (out = PostRaises RequestError → entry = ErrorApiFailed RequestError)
      ∧ (∀ resp, out = PostResponse resp →
           entry =
             if bool_decide (200 ≤ status_code resp ≤ 299) then
               match json_body resp with
               | Some (JsonObject i _) => DebugApiSuccess user_id (default 0 i)
               | Some JsonNotObject => ErrorApiUnknown AttributeError
               | None => ErrorApiUnknown JSONDecodeError
               end
             else ErrorApiFailed HTTPStatusError).
Proof.
  intros url out g'. subst url out g'.
  unfold post_api, client_post, raise_for_status, response_json,
    data_get_impression, data_get_attitude. unfold_M.
  destruct (net _ _) as [e|[status body]]; simpl.
  - destruct e; simpl; split_and!; try done; eexists; split_and!; done.
  - case_bool_decide; simpl.
    + destruct body as [[i a|]|]; simpl; split_and!; try done;
        eexists; (split_and!; [done | done | done |]);
        intros resp [= <-]; simpl; by rewrite bool_decide_eq_true_2.
    + split_and!; try done. eexists. split_and!; [done | done | done |].
      intros resp [= <-]; simpl. by rewrite bool_decide_eq_false_2.
Qed.

End FetcherFacts.

(** ** The enrichment step: what a run returns, touches and caches *)

Section ExecuteMore.

Import UserInfoCacheManager.

Lemma execute_enabled_returns_aux cfg net t_get t_set m g :
  truthy (is_enabled g) = true →
  (execute cfg net t_get t_set (Some m) g).1
  = Return (true, true, None, None, None)
  ∧ is_enabled (execute cfg net t_get t_set (Some m) g).2 = is_enabled g.
Proof.
  intros Hen.
  destruct (get t_get (py_str (dict_get (message_base_info m) "user_id"))
              (user_cache_manager g)).1 as [r|] eqn:Hr.
  - by rewrite (execute_hit _ _ _ _ _ _ _ Hen Hr).
  - destruct (execute_miss cfg net t_get t_set m g Hen Hr)
      as (i & a & entry & _ & Hx).
    by rewrite Hx.
Qed.

(** An enabled run with a message returns [(True, True, None, None, None)]
    and never raises, whatever the remote end does.  It changes neither the
    flags, the hook point, the captured original nor the TTL, and it leaves
    every other user's entry as it was. *)
Theorem execute_enabled_returns (cfg : PluginConfig) (net : Network)
    (t_get t_set : Z) (m : MaiMessages) (g : Globals) :
  truthy (is_enabled g) = true →
  let u := py_str (dict_get (message_base_info m) "user_id") in
  let run := execute cfg net t_get t_set (Some m) g in
  run.1 = Return (true, true, None, None, None)
  ∧ is_enabled run.2 = is_enabled g
  ∧ allow_user_debug run.2 = allow_user_debug g
  ∧ _original_func run.2 = _original_func g
  ∧ build_planner_prompt run.2 = build_planner_prompt g
  ∧ ttl (user_cache_manager run.2) = ttl (user_cache_manager g)
  ∧ ∀ u', u ≠ u' →
      _cache (user_cache_manager run.2) !! u' = _cache (user_cache_manager g) !! u'.
Proof.
  intros Hen u run.
  destruct (get t_get u (user_cache_manager g)).1 as [r|] eqn:Hr.
  - subst run. by rewrite (execute_hit _ _ _ _ _ _ _ Hen Hr).
  - destruct (execute_miss cfg net t_get t_set m g Hen Hr)
      as (i & a & entry & _ & Hx).
    subst run. fold u in Hx. rewrite Hx. simpl. split_and!; try done.
    + apply get_ttl.
    + intros u' Hne. rewrite lookup_insert_ne by done. by apply get_lookup_ne.
Qed.

Lemma execute_enabled_returns_witness :
  (execute default_config net_500 10 11 (message_of "u1")
     (started default_config)).1
  = Return (true, true, None, None, None).
Proof.
  apply (execute_enabled_returns default_config net_500 10 11
           (mkMaiMessages {[ "user_id" := PyStr "u1" ]})
           (started default_config) eq_refl).
Defined.

(** The handler's parameter may be [None]: an enabled run then raises the
    [AttributeError] of [message.message_base_info] before anything is
    looked up, posted or written. *)
Theorem execute_without_message_raises (cfg : PluginConfig) (net : Network)
    (t_get t_set : Z) (g : Globals) :
  truthy (is_enabled g) = true →
  execute cfg net t_get t_set None g = (Raise AttributeError, g).
Proof. intros Hen. unfold execute. unfold_M. by rewrite Hen. Qed.

Lemma execute_without_message_raises_witness :
  execute default_config net_500 10 11 None (started default_config)
  = (Raise AttributeError, started default_config).
Proof.
  apply (execute_without_message_raises default_config net_500 10 11
           (started default_config) eq_refl).
Defined.

(** The user id goes through [str()]: a run sees its message only through
    the string of the value under ["user_id"].  So an integer id and the
    string of its decimal digits are the same user, and a message with no
    ["user_id"] is handled as the user named ["None"]. *)
Theorem execute_user_id_through_str (cfg : PluginConfig) (net : Network)
    (t_get t_set : Z) (m m' : MaiMessages) (g : Globals) :
  py_str (dict_get (message_base_info m) "user_id")
  = py_str (dict_get (message_base_info m') "user_id") →
  execute cfg net t_get t_set (Some m) g = execute cfg net t_get t_set (Some m') g
  ∧ (∀ z, execute cfg net t_get t_set
            (Some (mkMaiMessages {[ "user_id" := PyInt z ]})) g
          = execute cfg net t_get t_set (message_of (pretty z)) g)
  ∧ execute cfg net t_get t_set (Some (mkMaiMessages ∅)) g
    = execute cfg net t_get t_set (message_of "None") g.
Proof.
  intros Hu.
  assert (Hext : ∀ m1 m2,
            py_str (dict_get (message_base_info m1) "user_id")
            = py_str (dict_get (message_base_info m2) "user_id") →
            execute cfg net t_get t_set (Some m1) g
            = execute cfg net t_get t_set (Some m2) g)
    by (intros m1 m2 H; unfold execute; by rewrite H).
  split_and!; [by apply Hext | intros z; by apply Hext | by apply Hext].
Qed.

Lemma execute_user_id_through_str_witness :
  execute default_config net_500 10 11
    (Some (mkMaiMessages {[ "user_id" := PyInt 42 ]})) (started default_config)
  = execute default_config net_500 10 11 (message_of "42") (started default_config).
Proof.
  apply (execute_user_id_through_str default_config net_500 10 11
           (mkMaiMessages {[ "user_id" := PyInt 42 ]})
           (mkMaiMessages {[ "user_id" := PyStr "42" ]})
           (started default_config)).
  reflexivity.
Defined.

(** A failed fetch is cached like an answer.  When the store has nothing
    fresh for the user and the request raises or comes back with a non-2xx
    status, the run files the neutral record [(0, "一般")] under the user with
    the stamp of the write; until that entry is past its TTL every further
    run for the user returns without a request, even against a remote end
    that would now answer. *)
Theorem execute_caches_failure (cfg : PluginConfig) (net : Network)
    (t_get t_set : Z) (m : MaiMessages) (g : Globals) :
  truthy (is_enabled g) = true →
  let u := py_str (dict_get (message_base_info m) "user_id") in
  let g1 := (execute cfg net t_get t_set (Some m) g).2 in
  (get t_get u (user_cache_manager g)).1 = None →
  ((∃ e, net (post_api_url cfg u) (api_timeout cfg) = PostRaises e)
   ∨ ∃ resp, net (post_api_url cfg u) (api_timeout cfg) = PostResponse resp
             ∧ ¬ (200 ≤ status_code resp ≤ 299)) →
  _cache (user_cache_manager g1) !! u
    = Some (mkUserInfoCacheEntry (mkUserInfo u 0 "一般") t_set)
  ∧ requests g1 = post_api_url cfg u :: requests g
  ∧ ∀ net' t_get' t_set',
      t_get' - t_set ≤ ttl (user_cache_manager g) →
      execute cfg net' t_get' t_set' (Some m) g1
      = (Return (true, true, None, None, None), g1).
Proof.
  intros Hen u g1 Hr Hfail.
  destruct (execute_miss cfg net t_get t_set m g Hen Hr)
    as (i & a & entry & Hp & Hx).
  fold u in Hp, Hx.
  assert (Hdef : (post_api cfg net u g).1 = Return (0, "一般")).
  { destruct Hfail as [[e He] | (resp & He & Hs)].
    - by apply post_api_raises with e.
    - rewrite (post_api_response _ _ _ _ _ He).
      by rewrite bool_decide_eq_false_2. }
  rewrite Hdef in Hp. injection Hp as <- <-.
  assert (He : _cache (user_cache_manager g1) !! u
               = Some (mkUserInfoCacheEntry (mkUserInfo u 0 "一般") t_set))
    by (subst g1; rewrite Hx; simpl; apply lookup_insert_eq).
  assert (Httl : ttl (user_cache_manager g1) = ttl (user_cache_manager g))
    by (subst g1; rewrite Hx; simpl; apply get_ttl).
  split_and!; [done | by subst g1; rewrite Hx |].
  intros net' t_get' t_set' Hle.
  apply execute_hit with (mkUserInfo u 0 "一般").
  - subst g1. by rewrite Hx.
  - fold u. rewrite (get_fresh _ _ _ _ He); [done|]. simpl. by rewrite Httl.
Qed.

(** A timeout at tick 10 is cached at tick 11; a run at tick 3611 against a
    remote end that answers still makes no request. *)
Lemma execute_caches_failure_witness :
  let g1 := (execute default_config net_timeout 10 11 (message_of "u1")
               (started default_config)).2 in
  execute default_config (net_answers (Some 80) (Some "friendly")) 3611 3612
    (message_of "u1") g1
  = (Return (true, true, None, None, None), g1).
Proof.
  intros g1.
  destruct (execute_caches_failure default_config net_timeout 10 11
              (mkMaiMessages {[ "user_id" := PyStr "u1" ]})
              (started default_config) eq_refl eq_refl) as (_ & _ & H).
  - left. by exists TimeoutException.
  - apply H. vm_compute. discriminate.
Defined.

(** Once the user's entry is past its TTL the next enabled run fetches
    again: it posts exactly one request and replaces the entry by the pair
    fetched, stamped with the reading of the write. *)
Theorem execute_refetches_after_expiry (cfg : PluginConfig) (net : Network)
    (t_get t_set : Z) (m : MaiMessages) (g : Globals) (e : UserInfoCacheEntry) :
  truthy (is_enabled g) = true →
  let u := py_str (dict_get (message_base_info m) "user_id") in
  let g1 := (execute cfg net t_get t_set (Some m) g).2 in
  _cache (user_cache_manager g) !! u = Some e →
  t_get - stamp e > ttl (user_cache_manager g) →
  ∃ i a, (post_api cfg net u g).1 = Return (i, a)
         ∧ requests g1 = post_api_url cfg u :: requests g
         ∧ _cache (user_cache_manager g1) !! u
           = Some (mkUserInfoCacheEntry (mkUserInfo u i a) t_set).
Proof.
  intros Hen u g1 He Hgt.
  assert (Hr : (get t_get u (user_cache_manager g)).1 = None)
    by (by rewrite (get_stale _ _ _ _ He Hgt)).
  destruct (execute_miss cfg net t_get t_set m g Hen Hr)
    as (i & a & entry & Hp & Hx).
  exists i, a. subst g1. fold u in Hx. rewrite Hx. simpl.
  split_and!; [done | done | apply lookup_insert_eq].
Qed.

Lemma execute_refetches_after_expiry_witness :
  let g := (cache_set 0 "u1" 1 "一般" (started default_config)).2 in
  let g1 := (execute default_config (net_answers (Some 80) (Some "friendly"))
               3601 3602 (message_of "u1") g).2 in
  _cache (user_cache_manager g1) !! "u1"
  = Some (mkUserInfoCacheEntry (mkUserInfo "u1" 80 "friendly") 3602).
Proof.
  intros g g1.
  destruct (execute_refetches_after_expiry default_config
              (net_answers (Some 80) (Some "friendly")) 3601 3602
              (mkMaiMessages {[ "user_id" := PyStr "u1" ]}) g
              (mkUserInfoCacheEntry (mkUserInfo "u1" 1 "一般") 0)
              eq_refl) as (i & a & Hp & _ & Hc).
  - vm_compute. reflexivity.
  - vm_compute. reflexivity.
  - vm_compute in Hp. injection Hp as <- <-. exact Hc.
Defined.

End ExecuteMore.

(** ** The interceptor: what a call through the hook touches and returns *)

Section PurgeFacts.

Import UserInfoCacheManager.

Lemma only_purges_refl g : only_purges g g.
Proof. by repeat split. Qed.

Lemma only_purges_trans g1 g2 g3 :
  only_purges g1 g2 → only_purges g2 g3 → only_purges g1 g3.
Proof.
  intros (H1 & H2 & H3 & H4 & H5 & H6 & H7) (K1 & K2 & K3 & K4 & K5 & K6 & K7).
  repeat split; try congruence. by transitivity (_cache (user_cache_manager g2)).
Qed.

(** A cache lookup, with or without a log record after it. *)
Lemma only_purges_get g now u logged :
  only_purges g
    (mkGlobals (is_enabled g) (allow_user_debug g)
       (get now u (user_cache_manager g)).2
       (_original_func g) (build_planner_prompt g) (requests g) logged).
Proof. repeat split; simpl; [apply get_ttl | apply get_subseteq]. Qed.

Lemma only_purges_keys_agree g g' :
  only_purges g g' → keys_agree (user_cache_manager g) →
  keys_agree (user_cache_manager g').
Proof.
  intros (_ & _ & _ & _ & _ & _ & Hsub) Hk u e He.
  apply Hk. by apply (lookup_weaken _ _ _ _ He Hsub).
Qed.

End PurgeFacts.

Section InterceptorMore.

Import UserInfoCacheManager.

Context {DatabaseMessages ActionInfo : Type}.
Variable host : PlannerArgs DatabaseMessages ActionInfo
                → result (PlannerResult DatabaseMessages).

Implicit Types (args : PlannerArgs DatabaseMessages ActionInfo) (g : Globals).

Lemma call_only_purges depth now f args g :
  only_purges g (call host depth now f args g).2.
Proof.
  revert f g. induction depth as [|depth IH]; intros [|] g; simpl;
    try apply only_purges_refl.
  unfold _patch_planner, cache_get. unfold_M.
  destruct (_original_func g) as [f|]; [|apply only_purges_refl].
  pose proof (IH f g) as Hin.
  destruct (call host depth now f args g) as [[[prompt ids]|e] g1]; [|done].
  simpl in Hin.
  destruct (chat_target_info args) as [info|]; [|done].
  apply only_purges_trans with g1; [done|].
  destruct (get now (user_id info) (user_cache_manager g1)) as [[found|] c'] eqn:Hg;
    simpl; replace c' with (get now (user_id info) (user_cache_manager g1)).2
      by (by rewrite Hg); apply only_purges_get.
Qed.

Lemma invoke_hook_only_purges depth now args g :
  only_purges g (invoke_hook host depth now args g).2.
Proof.
  unfold invoke_hook. unfold_M.
  destruct (build_planner_prompt g) as [f|]; [|apply only_purges_refl].
  apply call_only_purges.
Qed.

(** A [TypeError] out of a call comes from the host's function unless the
    wrapper is called with no original captured. *)
Lemma call_TypeError depth now f args g :
  (f = PatchPlanner → is_Some (_original_func g)) →
  (call host depth now f args g).1 = Raise TypeError →
  host args = Raise TypeError.
Proof.
  revert f. induction depth as [|depth IH]; intros [|] Hf; simpl; try done.
  unfold _patch_planner, cache_get. unfold_M.
  destruct (Hf eq_refl) as [f' Ho]. rewrite Ho.
  assert (Hin : (call host depth now f' args g).1 = Raise TypeError
                → host args = Raise TypeError)
    by (apply IH; intros _; by rewrite Ho).
  destruct (call host depth now f' args g) as [[[prompt ids]|e] g1]; simpl in *.
  - destruct (chat_target_info args) as [info|]; [|done].
    by destruct (get _ _ _) as [[found|] c'].
  - done.
Qed.

(** A call through the hook point, in any module state and at any depth,
    makes no request and writes nothing to the store: flags, hook point,
    captured original and request list come out as they went in, the TTL is
    the same, and the store afterwards is a sub-map of the store before (the
    lookup can only drop a stale entry). *)
Theorem invoke_hook_makes_no_request (depth : nat) (now : Z)
    (args : PlannerArgs DatabaseMessages ActionInfo) (g : Globals) :
  let g' := (invoke_hook host depth now args g).2 in
  requests g' = requests g
  ∧ _cache (user_cache_manager g') ⊆ _cache (user_cache_manager g)
  ∧ ttl (user_cache_manager g') = ttl (user_cache_manager g)
  ∧ is_enabled g' = is_enabled g
  ∧ allow_user_debug g' = allow_user_debug g
  ∧ _original_func g' = _original_func g
  ∧ build_planner_prompt g' = build_planner_prompt g.
Proof.
  intros g'.
  destruct (invoke_hook_only_purges depth now args g)
    as (H1 & H2 & H3 & H4 & H5 & H6 & H7).
  by split_and!.
Qed.

(** When the host's function raises, the installed wrapper raises the same
    exception and has touched nothing: there is no cache lookup, so not even
    a stale entry is dropped. *)
Theorem wrapper_passes_host_exception (depth : nat) (now : Z)
    (args : PlannerArgs DatabaseMessages ActionInfo) (g : Globals) (e : exn) :
  installed g →
  host args = Raise e →
  invoke_hook host (S depth) now args g = (Raise e, g).
Proof.
  intros [Ho Hb] Hhost. rewrite (invoke_hook_wrapper _ _ _ _ _ Hb).
  by rewrite (call_wrapper_over_host _ _ _ _ _ Ho), Hhost.
Qed.

End InterceptorMore.

Section AppendFacts.

Lemma prefix_app (s t : string) : String.prefix s (s +:+ t) = true.
Proof.
  induction s as [|a s IH]; [by destruct t|].
  change (String.prefix (String a s) (String a (s +:+ t)) = true).
  simpl. by destruct (Ascii.ascii_dec a a).
Qed.

Lemma prefix_refl (s : string) : String.prefix s s = true.
Proof.
  induction s as [|a s IH]; [done|].
  simpl. by destruct (Ascii.ascii_dec a a).
Qed.

End AppendFacts.

Section PipelineFacts.

Import UserInfoCacheManager.

Context {DatabaseMessages ActionInfo : Type}.
Variable host : PlannerArgs DatabaseMessages ActionInfo
                → result (PlannerResult DatabaseMessages).

(** With a target user and a host function that returns, the installed
    wrapper always returns too, whatever the store holds.  It only appends:
    the host's prompt is a prefix of the prompt returned, which is either the
    host's prompt itself or that prompt followed by the sentence for the
    record filed under the target user's id; the message list is the
    host's. *)
Theorem wrapper_only_appends (depth : nat) (now : Z)
    (args : PlannerArgs DatabaseMessages ActionInfo) (g : Globals)
    (info : TargetPersonInfo) (prompt : string)
    (ids : list (string * DatabaseMessages)) :
  installed g →
  chat_target_info args = Some info →
  host args = Return (prompt, ids) →
  ∃ prompt',
    (invoke_hook host (S depth) now args g).1 = Return (prompt', ids)
    ∧ String.prefix prompt prompt' = true
    ∧ (prompt' = prompt
       ∨ ∃ e, _cache (user_cache_manager g) !! user_id info = Some e
              ∧ prompt' = prompt +:+ favorability_prompt (user_info e)).
Proof.
  intros [Ho Hb] Hinfo Hhost. rewrite (invoke_hook_wrapper _ _ _ _ _ Hb).
  rewrite (call_wrapper_over_host _ _ _ _ _ Ho), Hhost, Hinfo.
  destruct (get now (user_id info) (user_cache_manager g)) as [[found|] c']
    eqn:Hg; simpl.
  - assert (Hf : (get now (user_id info) (user_cache_manager g)).1 = Some found)
      by (by rewrite Hg).
    destruct (get_Some_inv _ _ _ _ Hf) as (e & He & <- & _).
    eexists. split_and!; [done | apply prefix_app | right; by exists e].
  - eexists. split_and!; [done | apply prefix_refl | by left].
Qed.

(** From the handler to the prompt.  After an enabled run for user [u] that
    found nothing fresh in the store, a call through the installed hook for
    the target user [u], made while the new entry is within its TTL, returns
    the host's prompt followed by the sentence for the pair the run fetched.
    When the request raised, that is the sentence for impression 0 and
    attitude ["一般"]. *)
Theorem enrichment_reaches_prompt (cfg : PluginConfig) (net : Network)
    (t_get t_set : Z) (m : MaiMessages) (depth : nat) (now : Z)
    (args : PlannerArgs DatabaseMessages ActionInfo) (g : Globals)
    (info : TargetPersonInfo) (prompt : string)
    (ids : list (string * DatabaseMessages)) :
  truthy (is_enabled g) = true →
  installed g →
  let u := py_str (dict_get (message_base_info m) "user_id") in
  let g1 := (execute cfg net t_get t_set (Some m) g).2 in
  chat_target_info args = Some info →
  user_id info = u →
  (get t_get u (user_cache_manager g)).1 = None →
  now - t_set ≤ ttl (user_cache_manager g) →
  host args = Return (prompt, ids) →
  (∃ i a, (post_api cfg net u g).1 = Return (i, a)
          ∧ (invoke_hook host (S depth) now args g1).1
            = Return (prompt +:+ favorability_prompt (mkUserInfo u i a), ids))
  ∧ (∀ e, net (post_api_url cfg u) (api_timeout cfg) = PostRaises e →
       (invoke_hook host (S depth) now args g1).1
       = Return (prompt +:+ favorability_prompt (mkUserInfo u 0 "一般"), ids)).
Proof.
  intros Hen [Ho Hb] u g1 Hinfo Hu Hr Hle Hhost.
  destruct (execute_miss cfg net t_get t_set m g Hen Hr)
    as (i & a & entry & Hp & Hx).
  fold u in Hp, Hx.
  assert (Hhook : (invoke_hook host (S depth) now args g1).1
                  = Return (prompt +:+ favorability_prompt (mkUserInfo u i a), ids)).
  { apply (invoke_hook_fresh host depth now args g1 info
             (mkUserInfoCacheEntry (mkUserInfo u i a) t_set)); try done.
    - subst g1. by rewrite Hx.
    - subst g1. rewrite Hx, Hu. simpl. apply lookup_insert_eq.
    - subst g1. rewrite Hx. simpl. by rewrite get_ttl. }
  split.
  - by exists i, a.
  - intros e He. rewrite (post_api_raises _ _ _ _ _ He) in Hp.
    injection Hp as <- <-. exact Hhook.
Qed.

End PipelineFacts.

Section PipelineWitnesses.

Lemma wrapper_passes_host_exception_witness :
  invoke_hook stub_raising 1 100 (args_for (Some (mkTargetPersonInfo "u1")))
    (cache_set 0 "u1" 80 "friendly" (started default_config)).2
  = (Raise RequestError,
     (cache_set 0 "u1" 80 "friendly" (started default_config)).2).
Proof.
  by apply (wrapper_passes_host_exception stub_raising 0 100
              (args_for (Some (mkTargetPersonInfo "u1")))
              (cache_set 0 "u1" 80 "friendly" (started default_config)).2
              RequestError).
Defined.

Lemma wrapper_only_appends_witness :
  ∃ prompt',
    (invoke_hook stub_original 1 100 (args_for (Some (mkTargetPersonInfo "u1")))
       (cache_set 0 "u1" 80 "friendly" (started default_config)).2).1
    = Return (prompt', [])
    ∧ String.prefix "Hello" prompt' = true.
Proof.
  destruct (wrapper_only_appends stub_original 0 100
              (args_for (Some (mkTargetPersonInfo "u1")))
              (cache_set 0 "u1" 80 "friendly" (started default_config)).2
              (mkTargetPersonInfo "u1") "Hello" [])
    as (prompt' & H1 & H2 & _); [done | done | done |].
  by exists prompt'.
Defined.

(** A timeout at ticks 10 and 11, then a planner call at tick 20: the
    neutral sentence is appended. *)
Lemma enrichment_reaches_prompt_witness :
  let g1 := (execute default_config net_timeout 10 11 (message_of "u1")
               (started default_config)).2 in
  (invoke_hook stub_original 1 20 (args_for (Some (mkTargetPersonInfo "u1"))) g1).1
  = Return ("Hello" +:+ favorability_prompt (mkUserInfo "u1" 0 "一般"), []).
Proof.
  intros g1.
  destruct (enrichment_reaches_prompt stub_original default_config net_timeout
              10 11 (mkMaiMessages {[ "user_id" := PyStr "u1" ]}) 0 20
              (args_for (Some (mkTargetPersonInfo "u1")))
              (started default_config) (mkTargetPersonInfo "u1") "Hello" [])
    as [_ H]; [done | done | done | done | done | done | done |].
  by apply (H TimeoutException).
Defined.

End PipelineWitnesses.

(** ** The debug command *)

Section DebugFacts.

Import UserInfoCacheManager.

Variable chat_type : string → bool * option TargetPersonInfo.

Lemma debug_closed now self g :
  truthy (allow_user_debug g) && truthy (is_enabled g) = false →
  DebugCommand_execute chat_type now self g
  = (Return ((false, "该功能已关闭", 2), []), g).
Proof.
  intros H. unfold DebugCommand_execute. unfold_M.
  by destruct (truthy (allow_user_debug g)), (truthy (is_enabled g)).
Qed.

Lemma debug_only_purges now self g :
  only_purges g (DebugCommand_execute chat_type now self g).2.
Proof.
  unfold DebugCommand_execute, cache_get. unfold_M.
  destruct (negb _ || negb _); [apply only_purges_refl|].
  destruct (chat_type _) as [[|] target]; simpl; [apply only_purges_refl|].
  destruct (get _ _ _) as [found c'] eqn:Hg. simpl.
  match type of Hg with get ?t ?u ?c = _ =>
    replace c' with (get t u c).2 by (by rewrite Hg) end.
  apply only_purges_get.
Qed.

(** Unless both flags are on, the debug command answers
    [(False, "该功能已关闭", 2)], sends nothing, asks the host nothing and leaves
    the module state as it is; flags not yet set (before the plugin is
    built) count as off. *)
Theorem debug_command_closed (now : Z) (self : DebugCommand) (g : Globals) :
  truthy (allow_user_debug g) = false ∨ truthy (is_enabled g) = false →
  DebugCommand_execute chat_type now self g
  = (Return ((false, "该功能已关闭", 2), []), g).
Proof.
  intros [H|H]; apply debug_closed; rewrite H; [done|].
  by destruct (truthy (allow_user_debug g)).
Qed.

(** With both flags on the command returns [(True, "你输入的ID是：" + id, 2)],
    where the id is the [chatid] given, or the stream id of the message when
    none (or an empty one) is given.  If the host classes that id as a group
    chat, only the group-chat line is sent and the store is not looked at.
    Otherwise the line with the cached record comes first, and the record is
    the one [get] finds under the sender's user id, whatever [chatid] was
    given. *)
Theorem debug_command_reports (now : Z) (self : DebugCommand) (g : Globals) :
  truthy (allow_user_debug g) = true →
  truthy (is_enabled g) = true →
  let qid := message_info_user_info_user_id (message self) in
  let stream_id :=
    match matched_groups self !! "chatid" with
    | Some s => if bool_decide (s = "") then chat_stream_stream_id (message self)
                else s
    | None => chat_stream_stream_id (message self)
    end in
  let run := DebugCommand_execute chat_type now self g in
  let answer := (true, "你输入的ID是：" +:+ stream_id, 2) in
  ((chat_type stream_id).1 = true →
     run = (Return (answer, [IsGroupChatText true]), g))
  ∧ ((chat_type stream_id).1 = false →
       run.1 = Return (answer,
                       [ImpressionText (get now qid (user_cache_manager g)).1;
                        IsGroupChatText false])
       ∧ user_cache_manager run.2 = (get now qid (user_cache_manager g)).2).
Proof.
  intros Hd He qid stream_id run answer. subst run answer.
  unfold DebugCommand_execute, cache_get. unfold_M. rewrite Hd, He. simpl.
  assert (Hsid : (if str_falsy (matched_groups self !! "chatid")
                  then chat_stream_stream_id (message self)
                  else default "" (matched_groups self !! "chatid")) = stream_id).
  { subst stream_id. destruct (matched_groups self !! "chatid") as [s|]; [|done].
    simpl. by case_bool_decide. }
  rewrite Hsid.
  destruct (chat_type stream_id) as [[|] target]; simpl; split; try done.
  intros _. fold qid. by destruct (get now qid (user_cache_manager g)).
Qed.

(** The debug command, in any state, posts no request and writes nothing to
    the store; like the wrapper it can only drop a stale entry. *)
Theorem debug_command_makes_no_request (now : Z) (self : DebugCommand)
    (g : Globals) :
  let g' := (DebugCommand_execute chat_type now self g).2 in
  requests g' = requests g
  ∧ _cache (user_cache_manager g') ⊆ _cache (user_cache_manager g)
  ∧ ttl (user_cache_manager g') = ttl (user_cache_manager g)
  ∧ is_enabled g' = is_enabled g
  ∧ allow_user_debug g' = allow_user_debug g
  ∧ _original_func g' = _original_func g
  ∧ build_planner_prompt g' = build_planner_prompt g.
Proof.
  intros g'.
  destruct (debug_only_purges now self g) as (H1 & H2 & H3 & H4 & H5 & H6 & H7).
  by split_and!.
Qed.

End DebugFacts.

Section DebugWitnesses.

Lemma debug_command_closed_witness :
  DebugCommand_execute all_private 100 debug_other (started default_config)
  = (Return ((false, "该功能已关闭", 2), []), started default_config).
Proof.
  apply (debug_command_closed all_private 100 debug_other
           (started default_config)).
  by left.
Defined.

(** [u1] asks about [other]: the answer names [other], the record sent is
    the one cached for [u1]. *)
Lemma debug_command_reports_witness :
  (DebugCommand_execute all_private 100 debug_other
     (cache_set 0 "u1" 80 "friendly" (started debug_config)).2).1
  = Return ((true, "你输入的ID是：other", 2),
            [ImpressionText (Some (mkUserInfo "u1" 80 "friendly"));
             IsGroupChatText false]).
Proof.
  destruct (debug_command_reports all_private 100 debug_other
              (cache_set 0 "u1" 80 "friendly" (started debug_config)).2
              eq_refl eq_refl) as [_ H].
  destruct H as [H _]; [done|]. exact H.
Defined.

End DebugWitnesses.

(** ** Installation outcomes and the states the module can reach *)

Section ReachableFacts.

Import UserInfoCacheManager.

(** Whatever the hook point holds, [patch] leaves the store, the flags and
    the request list alone.  If the hook point holds a function, that
    function becomes [_original_func] and the wrapper is bound; if the class
    has no such attribute, nothing but the log changes.  The record logged
    last is the success record exactly when the wrapper ends up installed
    over the host's function. *)
Theorem patch_outcomes (g : Globals) :
  let g' := (patch g).2 in
  user_cache_manager g' = user_cache_manager g
  ∧ is_enabled g' = is_enabled g
  ∧ allow_user_debug g' = allow_user_debug g
  ∧ requests g' = requests g
  ∧ match build_planner_prompt g with
    | Some f =>
        _original_func g' = Some f
        ∧ build_planner_prompt g' = Some PatchPlanner
        ∧ log g' = (if bool_decide (f = HostBuildPlannerPrompt) then InfoPatched
                    else ErrorPatchFailed) :: InfoPatching :: log g
    | None =>
        _original_func g' = _original_func g
        ∧ build_planner_prompt g' = None
        ∧ log g' = ErrorPatchException AttributeError :: log g
    end
  ∧ (head (log g') = Some InfoPatched ↔ installed g').
Proof.
  intros g'. subst g'. unfold installed.
  destruct (build_planner_prompt g) as [[|]|] eqn:Hb.
  - rewrite (patch_over_host _ Hb). simpl. by split_and!.
  - rewrite (patch_over_wrapper _ Hb). simpl. split_and!; try done.
    split; [done | by intros [? _]].
  - rewrite (patch_without_hook _ Hb). simpl. split_and!; try done.
    split; [done | by intros [_ ?]].
Qed.

Lemma patch_invariant g : module_invariant g → module_invariant (patch g).2.
Proof.
  intros (Ht & Hk & Ho).
  destruct (build_planner_prompt g) as [[|]|] eqn:Hb.
  - rewrite (patch_over_host _ Hb). by repeat split.
  - rewrite (patch_over_wrapper _ Hb). by repeat split.
  - rewrite (patch_without_hook _ Hb). by repeat split.
Qed.

Lemma only_purges_invariant g g' :
  only_purges g g' → module_invariant g → module_invariant g'.
Proof.
  intros Hp (Ht & Hk & Ho). pose proof Hp as (_ & _ & H3 & H4 & _ & H6 & _).
  split_and!.
  - by rewrite H6.
  - by apply only_purges_keys_agree with g.
  - rewrite H3, H4. exact Ho.
Qed.

Lemma execute_invariant cfg net t_get t_set msg g :
  module_invariant g →
  module_invariant (execute cfg net t_get t_set msg g).2.
Proof.
  intros Hinv. destruct (truthy (is_enabled g)) eqn:Hen.
  - destruct msg as [m|].
    + set (u := py_str (dict_get (message_base_info m) "user_id")).
      destruct (get t_get u (user_cache_manager g)).1 as [r|] eqn:Hr.
      * by rewrite (execute_hit _ _ _ _ _ _ _ Hen Hr).
      * destruct (execute_miss cfg net t_get t_set m g Hen Hr)
          as (i & a & entry & _ & Hx).
        rewrite Hx. destruct Hinv as (Ht & Hk & Ho). split_and!; simpl.
        -- by rewrite get_ttl.
        -- by apply keys_agree_set, keys_agree_get.
        -- done.
    + unfold execute. unfold_M. by rewrite Hen.
  - by rewrite execute_disabled.
Qed.

Lemma step_invariant g g' : step g g' → module_invariant g → module_invariant g'.
Proof.
  intros [g0|cfg g0|cfg net t_get t_set msg g0|DM AI host depth now args g0
          |chat_type now self g0].
  - apply patch_invariant.
  - by intros (Ht & Hk & Ho).
  - apply execute_invariant.
  - apply only_purges_invariant, invoke_hook_only_purges.
  - apply only_purges_invariant, debug_only_purges.
Qed.

Lemma reachable_module_invariant g : reachable g → module_invariant g.
Proof.
  induction 1 as [hook Hh|g g' _ IH Hs].
  - split_and!; [done | apply keys_agree_init | by intros ?].
  - by apply step_invariant with g.
Qed.

(** In every state the module can reach (imported with the hook point
    holding the host's function or nothing, then any sequence of [patch],
    plugin construction, handler runs, calls through the hook and debug
    commands) the TTL is the default 3600, every entry's record carries the
    key it is filed under, and the wrapper is bound only with an original
    captured.  So a call through the hook raises [TypeError] only if the
    host's own function does. *)
Theorem reachable_states_are_sound (g : Globals) :
  reachable g →
  module_invariant g
  ∧ ∀ (DatabaseMessages ActionInfo : Type)
      (host : PlannerArgs DatabaseMessages ActionInfo
              → result (PlannerResult DatabaseMessages))
      depth now args,
      (invoke_hook host depth now args g).1 = Raise TypeError →
      host args = Raise TypeError.
Proof.
  intros Hr. pose proof (reachable_module_invariant g Hr) as Hinv.
  split; [done|]. intros DM AI host depth now args.
  destruct Hinv as (_ & _ & Ho). unfold invoke_hook. unfold_M.
  destruct (build_planner_prompt g) as [f|] eqn:Hb; [|done].
  apply call_TypeError. intros ->. by apply Ho.
Qed.

Lemma reachable_states_are_sound_witness :
  module_invariant
    (execute default_config net_timeout 10 11 (message_of "u1")
       (started default_config)).2.
Proof.
  apply (reachable_states_are_sound
           (execute default_config net_timeout 10 11 (message_of "u1")
              (started default_config)).2).
  eapply reachable_step; [|apply step_execute].
  eapply reachable_step; [|apply step_plugin_init].
  eapply reachable_step; [|apply step_patch].
  by apply reachable_import.
Defined.

End ReachableFacts.

(** ** The plugin's construction *)

Section PluginFacts.

(** Both flags are [None] when the module is imported, so until the plugin
    is built the handler does nothing and the debug command is closed.
    [Plugin.__init__] logs that the plugin named in the configuration is
    loaded, writes the two flags from the configuration and changes nothing
    else; from then on the handler works exactly when
    [plugin.enabled] is set and the debug command is open exactly when
    [plugin.enabled] and [plugin.user_debug] both are. *)
Theorem plugin_init_sets_gates (cfg : PluginConfig) (g : Globals) :
  let g' := (plugin_init cfg g).2 in
  is_enabled g' = Some (plugin_enabled cfg)
  ∧ allow_user_debug g' = Some (plugin_user_debug cfg)
  ∧ user_cache_manager g' = user_cache_manager g
  ∧ _original_func g' = _original_func g
  ∧ build_planner_prompt g' = build_planner_prompt g
  ∧ requests g' = requests g
  ∧ log g' = InfoPluginLoaded (plugin_name cfg) :: log g
  ∧ (∀ hook net t_get t_set msg,
       execute cfg net t_get t_set msg (module_globals hook)
       = (Return (false, true, None, None, None), module_globals hook))
  ∧ (∀ net t_get t_set m,
       (execute cfg net t_get t_set (Some m) g').1
       = Return (plugin_enabled cfg, true, None, None, None))
  ∧ (∀ chat_type now self, ∃ text sent,
       (DebugCommand_execute chat_type now self g').1
       = Return ((plugin_enabled cfg && plugin_user_debug cfg, text, 2), sent)).
Proof.
  intros g'. subst g'. split_and!; try done.
  - intros net t_get t_set m. destruct (plugin_enabled cfg) eqn:He.
    + destruct (execute_enabled_returns_aux cfg net t_get t_set m
                  (plugin_init cfg g).2) as [H _]; [by simpl; rewrite He|done].
    + rewrite execute_disabled; [done|]. by simpl; rewrite He.
  - intros chat_type now self.
    destruct (plugin_enabled cfg) eqn:He, (plugin_user_debug cfg) eqn:Hd.
    + unfold DebugCommand_execute, cache_get. unfold_M. simpl. rewrite He, Hd.
      simpl. destruct (chat_type _) as [[|] ?]; [by do 2 eexists|].
      simpl.
      destruct (UserInfoCacheManager.get now
                  (message_info_user_info_user_id (message self))
                  (user_cache_manager g)).
      by do 2 eexists.
    + rewrite debug_closed; [by do 2 eexists|]. by simpl; rewrite He, Hd.
    + rewrite debug_closed; [by do 2 eexists|]. by simpl; rewrite He, Hd.
    + rewrite debug_closed; [by do 2 eexists|]. by simpl; rewrite He, Hd.
Qed.

End PluginFacts.
